(** * celerymon: the event-to-metric reduction of [__main__.py]

    A shallow embedding of the task-lifecycle classifier ([task_handler]),
    the heartbeat tracker ([worker_heartbeat]), the dispatcher
    ([event_dispatcher]) and one cycle of the periodic aggregator
    ([Submitter._run]), with the Python values they manipulate.

    Python floats are IEEE-754 binary64 numbers: they are modelled by the
    Standard Library's [spec_float] with [prec = 53] and [emax = 1024].
    Python statements become computations of a small monad over the
    process-wide state (the module globals [tuids] and [heartbeats], the
    metric sink and the log), with three outcomes: normal completion, a
    [return] statement, or a raised exception. *)

From Stdlib Require Import ZArith List String Ascii Bool Lia.
From Stdlib Require Import Floats.SpecFloat.
Import ListNotations.

Local Open Scope string_scope.
Local Open Scope Z_scope.

(** ** Python floats *)

Module PyFloat.

Definition prec : Z := 53.
Definition emax : Z := 1024.

Definition sub : spec_float -> spec_float -> spec_float := SFsub prec emax.
Definition ltb : spec_float -> spec_float -> bool := SFltb.
Definition leb : spec_float -> spec_float -> bool := SFleb.
Definition eqb : spec_float -> spec_float -> bool := SFeqb.

(** The literal [0.] of line 110. *)
Definition zero : spec_float := S754_zero false.

(** [float(z)] for an [int]: correctly rounded (to nearest, ties to even);
    the result is an infinity exactly when Python raises [OverflowError]. *)
Definition of_Z (z : Z) : spec_float := binary_normalize prec emax z 0 false.

Definition is_zero (f : spec_float) : bool :=
  match f with S754_zero _ => true | _ => false end.

Definition is_infinity (f : spec_float) : bool :=
  match f with S754_infinity _ => true | _ => false end.

(** A finite number (a zero or a finite non-zero float) in canonical
    binary64 form: what a timestamp read from [time.time()] or parsed from
    an event is. *)
Definition finite (f : spec_float) : bool :=
  match f with
  | S754_zero _ => true
  | S754_finite _ m e => bounded prec emax m e
  | _ => false
  end.

(** The float [r] is a number (not a NaN) whose sign bit is [s]. *)
Definition signed (s : bool) (r : spec_float) : Prop :=
  match r with
  | S754_zero s' | S754_infinity s' | S754_finite s' _ _ => s' = s
  | S754_nan => False
  end.

(** The integer [z] and the float [f] denote the same number (Python
    compares an [int] with a [float] exactly). *)
Definition eqb_Z (f : spec_float) (z : Z) : bool :=
  match f with
  | S754_zero _ => z =? 0
  | S754_finite s m e =>
      let mz := if s then Z.neg m else Z.pos m in
      if 0 <=? e then z =? mz * 2 ^ e else mz =? z * 2 ^ (- e)
  | _ => false
  end.

End PyFloat.

(** ** Python values

    The values an event payload can hold once deserialised (the JSON data
    model): [None], booleans, integers, floats, strings, lists and
    dictionaries with string keys. *)

#[warnings="-register-all"]
Inductive pyval : Type :=
| PNone
| PBool (b : bool)
| PInt (z : Z)
| PFloat (f : spec_float)
| PStr (s : string)
| PList (l : list pyval)
| PDict (d : list (string * pyval)).

(** An event is a [dict] with string keys. *)
Definition event : Type := list (string * pyval).

(** The exceptions that occur.  The first four derive from [Exception];
    [KeyboardInterrupt] and [SystemExit] derive from [BaseException] only,
    so [except Exception] does not catch them. *)
Inductive exn : Type :=
| KeyError
| TypeError
| OverflowError
| AttributeError
| KeyboardInterrupt
| SystemExit.

Definition is_Exception (ex : exn) : bool :=
  match ex with
  | KeyboardInterrupt | SystemExit => false
  | _ => true
  end.

Module Py.

(** [bool(v)]: the truth value used by [if v], [not v] and [v or w]. *)
Definition truthy (v : pyval) : bool :=
  match v with
  | PNone => false
  | PBool b => b
  | PInt z => negb (z =? 0)
  | PFloat f => negb (PyFloat.is_zero f)
  | PStr s => negb (s =? "")%string
  | PList l => match l with [] => false | _ => true end
  | PDict d => match d with [] => false | _ => true end
  end.

(** [hash(v)] succeeds: lists and dictionaries are unhashable. *)
Definition hashable (v : pyval) : bool :=
  match v with
  | PList _ | PDict _ => false
  | _ => true
  end.

(** [bool] is a subclass of [int]: [True] is [1] and [False] is [0]. *)
Definition as_int (v : pyval) : option Z :=
  match v with
  | PBool b => Some (if b then 1 else 0)
  | PInt z => Some z
  | _ => None
  end.

(** Equality of two hashable values as dictionary or set keys
    ([hash(a) == hash(b) and a == b]).  Numbers compare by value across
    [bool], [int] and [float]; a NaN equals no value, the NaN of a later
    event being another object. *)
Definition key_eqb (a b : pyval) : bool :=
  match a, b with
  | PNone, PNone => true
  | PStr s, PStr t => (s =? t)%string
  | PFloat f, PFloat g => PyFloat.eqb f g
  | PFloat f, _ => match as_int b with Some z => PyFloat.eqb_Z f z | None => false end
  | _, PFloat g => match as_int a with Some z => PyFloat.eqb_Z g z | None => false end
  | _, _ =>
      match as_int a, as_int b with
      | Some x, Some y => x =? y
      | _, _ => false
      end
  end.

(** [v == s] for a string literal [s]. *)
Definition eq_str (v : pyval) (s : string) : bool :=
  match v with
  | PStr t => (t =? s)%string
  | _ => false
  end.

(** [v in [s1, ..., sn]] for string literals. *)
Definition in_strs (v : pyval) (l : list string) : bool :=
  existsb (eq_str v) l.

(** [a or b]. *)
Definition or_ (a b : pyval) : pyval := if truthy a then a else b.

(** [s[n:]] on a string; the strings at hand are ASCII, one character to
    the byte. *)
Fixpoint drop (n : nat) (s : string) : string :=
  match n, s with
  | O, _ => s
  | S _, EmptyString => EmptyString
  | S n', String _ s' => drop n' s'
  end.

(** [d[k]] on a [dict] with string keys: the value, or no value
    ([KeyError]). *)
Fixpoint lookup (k : string) (d : list (string * pyval)) : option pyval :=
  match d with
  | [] => None
  | (k', v) :: d' => if (k' =? k)%string then Some v else lookup k d'
  end.

End Py.

(** ** The process state *)

(** The record kept for one task: the [dict] with the keys ['name'],
    ['received'] and ['started'] built at line 83. *)
Record TaskRecord : Type := mkTaskRecord {
  r_name : pyval;
  r_received : pyval;
  r_started : pyval
}.

(** The points handed to the metric sink: [TaskStats(task, event, duration)],
    [QueueStats(queue, count)] and [WorkerStats(count)]. *)
Inductive Metric : Type :=
| TaskMetric (task : pyval) (event_kind : pyval) (duration : pyval)
| QueueMetric (queue : string) (count : Z)
| WorkerMetric (count : nat).

(** The calls to the logger. *)
Inductive LogEntry : Type :=
| LogNoHandler (ty : pyval)
| LogNoName (ev : event)
| LogTask (len : nat) (task : pyval) (cname : pyval) (duration : pyval)
| LogException (ex : exn) (ev : event)
| LogQueue (queue : string) (count : Z)
| LogWorkers (count : nat)
| LogUnhandled (ex : exn).

(** Modelled from the spec: the class [ExpiringDict] of the third-party
    package [expiringdict] is not part of the repository's sources.  It is
    an insertion-ordered dictionary (a subclass of [OrderedDict]) whose
    entries hold a value and the time of their insertion, bounded by a
    maximum entry count and a maximum age (section 4.1 of the
    specification). *)
Record ExpiringDict : Type := mkExpiringDict {
  max_len : Z;
  max_age : Z;
  items : list (pyval * (TaskRecord * spec_float))
}.

(** The module globals [tuids] (line 47) and [heartbeats] (line 43), the
    metric sink ([pending]: points constructed and not yet committed;
    [written]: points committed), the log, and the wall clock: [clock n] is
    what the [n]-th call of [time.time()] returns, [ticks] the number of
    calls made so far. *)
Record World : Type := mkWorld {
  tuids : ExpiringDict;
  heartbeats : list pyval;
  pending : list Metric;
  written : list Metric;
  logged : list LogEntry;
  clock : nat -> spec_float;
  ticks : nat
}.

Definition set_tuids (d : ExpiringDict) (w : World) : World :=
  mkWorld d (heartbeats w) (pending w) (written w) (logged w) (clock w) (ticks w).
Definition set_heartbeats (h : list pyval) (w : World) : World :=
  mkWorld (tuids w) h (pending w) (written w) (logged w) (clock w) (ticks w).
Definition set_pending (p : list Metric) (w : World) : World :=
  mkWorld (tuids w) (heartbeats w) p (written w) (logged w) (clock w) (ticks w).
Definition set_written (p : list Metric) (w : World) : World :=
  mkWorld (tuids w) (heartbeats w) (pending w) p (logged w) (clock w) (ticks w).
Definition set_logged (l : list LogEntry) (w : World) : World :=
  mkWorld (tuids w) (heartbeats w) (pending w) (written w) l (clock w) (ticks w).
Definition set_ticks (n : nat) (w : World) : World :=
  mkWorld (tuids w) (heartbeats w) (pending w) (written w) (logged w) (clock w) n.
Definition set_items (l : list (pyval * (TaskRecord * spec_float))) (w : World) : World :=
  set_tuids (mkExpiringDict (max_len (tuids w)) (max_age (tuids w)) l) w.

(** ** The monad of statements *)

(** How a statement ends: normally with a value, by [return] (the function
    body is left at once), or by raising an exception. *)
Inductive outcome (A : Type) : Type :=
| Normal (a : A)
| Return
| Raise (ex : exn).
Arguments Normal {A} a.
Arguments Return {A}.
Arguments Raise {A} ex.

Definition M (A : Type) : Type := World -> outcome A * World.

Definition ret {A} (a : A) : M A := fun w => (Normal a, w).
Definition py_return {A} : M A := fun w => (Return, w).
Definition raise {A} (ex : exn) : M A := fun w => (Raise ex, w).

Definition bind {A B} (m : M A) (k : A -> M B) : M B :=
  fun w =>
    match m w with
    | (Normal a, w') => k a w'
    | (Return, w') => (Return, w')
    | (Raise ex, w') => (Raise ex, w')
    end.

Notation "x <- m ;; k" := (bind m (fun x => k))
  (at level 61, m at next level, right associativity).
Notation "m ;; k" := (bind m (fun _ => k))
  (at level 61, right associativity).

Definition get {A} (f : World -> A) : M A := fun w => (Normal (f w), w).
Definition modify (f : World -> World) : M unit := fun w => (Normal tt, f w).

(** A value that may be missing or ill-typed, or the exception to raise. *)
Definition lift {A} (ex : exn) (o : option A) : M A :=
  match o with
  | Some a => ret a
  | None => raise ex
  end.

(** [if c: body] with no [else]. *)
Definition when (c : bool) (body : M unit) : M unit :=
  if c then body else ret tt.

(** A call of a function whose body is [body]: a [return] ends the call
    normally; an exception propagates to the caller. *)
Definition call (body : M unit) : M unit :=
  fun w =>
    match body w with
    | (Return, w') => (Normal tt, w')
    | r => r
    end.

(** [try: body except Exception as ex: handler(ex)]. *)
Definition try_except_Exception {A} (body : M A) (handler : exn -> M A) : M A :=
  fun w =>
    match body w with
    | (Raise ex, w') => if is_Exception ex then handler ex w' else (Raise ex, w')
    | r => r
    end.

(** [try: body except E: handler] for one exception class [E]. *)
Definition try_except {A} (body : M A) (catches : exn -> bool) (handler : M A) : M A :=
  fun w =>
    match body w with
    | (Raise ex, w') => if catches ex then handler w' else (Raise ex, w')
    | r => r
    end.

(** [time.time()]. *)
Definition time_time : M spec_float :=
  fun w => (Normal (clock w (ticks w)), set_ticks (S (ticks w)) w).

(** [log.debug], [log.error] and [log.exception]: the entry is appended to
    the log.  The logging package reports its own failures on [stderr] and
    raises nothing. *)
Definition log (e : LogEntry) : M unit :=
  modify (fun w => set_logged (logged w ++ [e]) w).

(** Modelled from the spec: the series helpers [TaskStats], [QueueStats]
    and [WorkerStats] of the repository's module [influx] are not under
    [src/].  Constructing one records a point in the sink's pending batch
    (section 6, "accepts point emissions"). *)
Definition emit (m : Metric) : M unit :=
  modify (fun w => set_pending (pending w ++ [m]) w).

(** ** Python operations that can raise *)

(** [d[k]] on an event. *)
Definition py_getitem (d : event) (k : string) : M pyval :=
  lift KeyError (Py.lookup k d).

(** [v[n:]]: a string or a list without its first [n] elements; any other
    value is not subscriptable by a slice. *)
Definition py_slice_from (n : nat) (v : pyval) : M pyval :=
  match v with
  | PStr s => ret (PStr (Py.drop n s))
  | PList l => ret (PList (skipn n l))
  | _ => raise TypeError
  end.

(** [float(z)] as the arithmetic operators apply it to an [int] operand. *)
Definition py_float_of_int (z : Z) : M spec_float :=
  let f := PyFloat.of_Z z in
  if PyFloat.is_infinity f then raise OverflowError else ret f.

(** [a - b]: defined on numbers ([bool], [int], [float]); an [int] operand
    is converted when the other one is a [float]. *)
Definition py_sub (a b : pyval) : M pyval :=
  match a, b with
  | PFloat f, PFloat g => ret (PFloat (PyFloat.sub f g))
  | PFloat f, _ =>
      z <- lift TypeError (Py.as_int b) ;;
      g <- py_float_of_int z ;;
      ret (PFloat (PyFloat.sub f g))
  | _, PFloat g =>
      z <- lift TypeError (Py.as_int a) ;;
      f <- py_float_of_int z ;;
      ret (PFloat (PyFloat.sub f g))
  | _, _ =>
      x <- lift TypeError (Py.as_int a) ;;
      y <- lift TypeError (Py.as_int b) ;;
      ret (PInt (x - y))
  end.

(** [hash(k)], as every dictionary and set operation starts. *)
Definition py_hash (k : pyval) : M unit :=
  if Py.hashable k then ret tt else raise TypeError.

(** ** The insertion-ordered dictionary under [tuids] *)

Module OrderedDict.

Definition entry : Type := (pyval * (TaskRecord * spec_float))%type.

(** The entry stored under [k], if any. *)
Fixpoint find (k : pyval) (l : list entry) : option (TaskRecord * spec_float) :=
  match l with
  | [] => None
  | (k', v) :: l' => if Py.key_eqb k' k then Some v else find k l'
  end.

(** [OrderedDict.__delitem__]: the entry under [k] is taken out. *)
Fixpoint remove (k : pyval) (l : list entry) : list entry :=
  match l with
  | [] => []
  | (k', v) :: l' => if Py.key_eqb k' k then remove k l' else (k', v) :: remove k l'
  end.

(** [OrderedDict.__setitem__]: the value of an existing key is replaced
    where it stands; a new key goes to the end. *)
Fixpoint store (k : pyval) (v : TaskRecord * spec_float) (l : list entry) : list entry :=
  match l with
  | [] => [(k, v)]
  | (k', v') :: l' => if Py.key_eqb k' k then (k', v) :: l' else (k', v') :: store k v l'
  end.

(** The record stored under [k] is changed in place by [f]; its insertion
    time and its position stay. *)
Fixpoint mutate (k : pyval) (f : TaskRecord -> TaskRecord) (l : list entry) : list entry :=
  match l with
  | [] => []
  | (k', (r, t)) :: l' =>
      if Py.key_eqb k' k then (k', (f r, t)) :: l' else (k', (r, t)) :: mutate k f l'
  end.

End OrderedDict.

(** ** The methods of [ExpiringDict], applied to the global [tuids] *)

(** The test [time.time() - item[1] < self.max_age] on an entry inserted at
    [t].  [max_age] is an [int] that binary64 represents exactly, so
    comparing with it is comparing with its float. *)
Definition fresh (max_age : Z) (now t : spec_float) : bool :=
  PyFloat.ltb (PyFloat.sub now t) (PyFloat.of_Z max_age).

(** [key in tuids] ([ExpiringDict.__contains__]): an entry past its age is
    deleted and reported absent; the clock is read only when the key has an
    entry. *)
Definition tuids_contains (key : pyval) : M bool :=
  py_hash key ;;
  d <- get tuids ;;
  match OrderedDict.find key (items d) with
  | None => ret false
  | Some (_, t) =>
      now <- time_time ;;
      if fresh (max_age d) now t then ret true
      else modify (set_items (OrderedDict.remove key (items d))) ;; ret false
  end.

(** [tuids[key]] ([ExpiringDict.__getitem__]): the record, or [KeyError]
    when the key has no entry or its entry is past its age (the entry is
    then deleted). *)
Definition tuids_getitem (key : pyval) : M TaskRecord :=
  py_hash key ;;
  d <- get tuids ;;
  match OrderedDict.find key (items d) with
  | None => raise KeyError
  | Some (r, t) =>
      now <- time_time ;;
      if fresh (max_age d) now t then ret r
      else modify (set_items (OrderedDict.remove key (items d))) ;; raise KeyError
  end.

(** [tuids.update({key: value})], that is [tuids[key] = value]
    ([ExpiringDict.__setitem__]): at capacity the oldest-inserted entry is
    dropped first; the entry is stamped with the current time. *)
Definition tuids_update (key : pyval) (value : TaskRecord) : M unit :=
  py_hash key ;;
  d <- get tuids ;;
  when (Z.of_nat (List.length (items d)) =? max_len d)
       (modify (set_items (tl (items d)))) ;;
  now <- time_time ;;
  modify (fun w => set_items (OrderedDict.store key (value, now) (items (tuids w))) w).

(** [del tuids[key]]: [ExpiringDict] inherits [OrderedDict.__delitem__],
    which looks at no age. *)
Definition tuids_delitem (key : pyval) : M unit :=
  py_hash key ;;
  d <- get tuids ;;
  match OrderedDict.find key (items d) with
  | None => raise KeyError
  | Some _ => modify (set_items (OrderedDict.remove key (items d)))
  end.

(** [len(tuids)]: the number of entries held, expired ones included. *)
Definition tuids_len : M nat :=
  get (fun w => List.length (items (tuids w))).

(** [rec['started'] = ts] on the record object that [tuids[key]] has just
    returned: the object held by the store itself is changed. *)
Definition record_set_started (key : pyval) (ts : pyval) : M unit :=
  modify (fun w =>
    set_items (OrderedDict.mutate key
                 (fun r => mkTaskRecord (r_name r) (r_received r) ts)
                 (items (tuids w))) w).

(** ** The handlers (lines 50-113) *)

(** The body of the [try] block of [task_handler], lines 77-111. *)
Definition task_handler_body (ev : event) : M unit :=
  ty <- py_getitem ev "type" ;;
  cname <- py_slice_from 5 ty ;;
  uuid <- py_getitem ev "uuid" ;;
  let duration := PNone in
  nd <-
    (if Py.eq_str cname "received" then
       name <- py_getitem ev "name" ;;
       ts <- py_getitem ev "timestamp" ;;
       tuids_update uuid (mkTaskRecord name ts (PInt 0)) ;;
       ret (name, duration)
     else if Py.eq_str cname "started" then
       present <- tuids_contains uuid ;;
       when (negb present) py_return ;;
       r <- tuids_getitem uuid ;;
       let name := r_name r in
       ts <- py_getitem ev "timestamp" ;;
       tuids_getitem uuid ;;
       record_set_started uuid ts ;;
       r1 <- tuids_getitem uuid ;;
       r2 <- tuids_getitem uuid ;;
       duration <- py_sub (r_started r1) (r_received r2) ;;
       ret (name, duration)
     else
       present <- tuids_contains uuid ;;
       when (negb present) py_return ;;
       r <- tuids_getitem uuid ;;
       ret (r_name r, duration)) ;;
  let name := fst nd in
  let duration := snd nd in
  when (negb (Py.truthy name))
       (log (LogNoName ev) ;; py_return) ;;
  duration <-
    (if Py.in_strs cname ["succeeded"; "failed"; "retried"; "rejected"; "revoked"] then
       r <- tuids_getitem uuid ;;
       duration <-
         (if Py.truthy (r_started r) then
            ts <- py_getitem ev "timestamp" ;;
            r' <- tuids_getitem uuid ;;
            py_sub ts (r_started r')
          else ret duration) ;;
       tuids_delitem uuid ;;
       ret duration
     else ret duration) ;;
  n <- tuids_len ;;
  log (LogTask n name cname duration) ;;
  emit (TaskMetric name cname (Py.or_ duration (PFloat PyFloat.zero))).

(** [task_handler(event)], lines 75-113. *)
Definition task_handler (ev : event) : M unit :=
  call (try_except_Exception (task_handler_body ev)
                             (fun ex => log (LogException ex ev))).

(** [set.add(h)] on the global [heartbeats]. *)
Definition heartbeats_add (h : pyval) : M unit :=
  py_hash h ;;
  modify (fun w =>
    if existsb (Py.key_eqb h) (heartbeats w) then w
    else set_heartbeats (heartbeats w ++ [h]) w).

(** [worker_heartbeat(event)], lines 70-72. *)
Definition worker_heartbeat (ev : event) : M unit :=
  call (h <- py_getitem ev "hostname" ;; heartbeats_add h).

(** The table of line 51. *)
Definition handlers : list (string * (event -> M unit)) :=
  [ ("task-succeeded", task_handler);
    ("task-sent", task_handler);
    ("task-received", task_handler);
    ("task-started", task_handler);
    ("task-failed", task_handler);
    ("task-rejected", task_handler);
    ("task-revoked", task_handler);
    ("task-retried", task_handler);
    ("worker-heartbeat", worker_heartbeat);
    ("worker-online", worker_heartbeat) ].

(** [handlers.get(k, None)]. *)
Fixpoint handlers_get (k : pyval) (t : list (string * (event -> M unit)))
  : option (event -> M unit) :=
  match t with
  | [] => None
  | (s, f) :: t' => if Py.eq_str k s then Some f else handlers_get k t'
  end.

(** [gevent.spawn(func, event)]: the greenlet is run to its end before the
    next event is dispatched (events are handled in the order of their
    delivery); an exception ends the greenlet and reaches nobody else. *)
Definition spawn (g : M unit) : M unit :=
  fun w =>
    match g w with
    | (Raise _, w') => (Normal tt, w')
    | r => r
    end.

(** [event_dispatcher(event)], lines 50-67. *)
Definition event_dispatcher (ev : event) : M unit :=
  call (ty <- py_getitem ev "type" ;;
        py_hash ty ;;
        match handlers_get ty handlers with
        | Some func => spawn (func ev)
        | None => log (LogNoHandler ty)
        end).

(** The events of a list handled one after the other by [h]; the first
    one that raises ends the run. *)
Fixpoint for_each {A} (h : A -> M unit) (l : list A) : M unit :=
  match l with
  | [] => ret tt
  | a :: l' => h a ;; for_each h l'
  end.

(** ** The aggregator (lines 133-162) *)

Definition is_queue_metric (m : Metric) : bool :=
  match m with QueueMetric _ _ => true | _ => false end.
Definition is_worker_metric (m : Metric) : bool :=
  match m with WorkerMetric _ => true | _ => false end.

(** Modelled from the spec: [QueueStats.commit()] and [WorkerStats.commit()]
    belong to the repository's module [influx], which is not under [src/].
    A commit writes the pending points of its series and empties that batch;
    with no point of the series pending it raises [AttributeError] (the
    comments of lines 152 and 157). *)
Definition commit (series : Metric -> bool) : M unit :=
  fun w =>
    match filter series (pending w) with
    | [] => (Raise AttributeError, w)
    | batch =>
        (Normal tt,
         set_written (written w ++ batch)
           (set_pending (filter (fun m => negb (series m)) (pending w)) w))
    end.

Definition is_AttributeError (ex : exn) : bool :=
  match ex with AttributeError => true | _ => false end.

(** Lines 140-148 of [Submitter._run]: the queue depths and the worker
    count are reported, then the heartbeat set is replaced by an empty one.
    [counts] is what [redis.itercounts()] yields (the module [broker] is not
    under [src/]); the names are strings, which [str(name)] leaves as they
    are. *)
Definition Submitter_collect (counts : list (string * Z)) : M unit :=
  for_each (fun nc =>
              let name := fst nc in
              let count := snd nc in
              log (LogQueue name count) ;;
              emit (QueueMetric name count)) counts ;;
  n <- get (fun w => List.length (heartbeats w)) ;;
  emit (WorkerMetric n) ;;
  log (LogWorkers n) ;;
  modify (set_heartbeats []).

(** Lines 150-158: both series are committed; a series with nothing to
    commit is passed over. *)
Definition Submitter_commit : M unit :=
  try_except (commit is_queue_metric) is_AttributeError (ret tt) ;;
  try_except (commit is_worker_metric) is_AttributeError (ret tt).

(** The [try] block of one turn of the loop, lines 138-158, after the
    sleep. *)
Definition Submitter_cycle (counts : list (string * Z)) : M unit :=
  Submitter_collect counts ;;
  Submitter_commit.

Definition is_shutdown (ex : exn) : bool :=
  match ex with KeyboardInterrupt | SystemExit => true | _ => false end.

(** One turn of the loop: [KeyboardInterrupt] and [SystemExit] leave
    [_run]; any other exception is logged and the loop goes on. *)
Definition Submitter_turn (counts : list (string * Z)) : M unit :=
  try_except_Exception
    (try_except (Submitter_cycle counts) is_shutdown py_return)
    (fun ex => log (LogUnhandled ex)).

(** [Submitter._run] over the cycles whose counter readings are given. *)
Definition Submitter_run (cycles : list (list (string * Z))) : M unit :=
  call (for_each Submitter_turn cycles).

(** ** The vocabulary of the properties *)

(** [ExpiringDict(max_len=10240, max_age_seconds=60 * 60 * 24 * 7)], line 47. *)
Definition tuids_init : ExpiringDict :=
  mkExpiringDict 10240 (60 * 60 * 24 * 7) [].

(** The state at start-up, for a given wall clock. *)
Definition initial (clk : nat -> spec_float) : World :=
  mkWorld tuids_init [] [] [] [] clk 0.

(** The kinds of line 100, after which a task is no longer tracked. *)
Definition terminal_kinds : list string :=
  ["succeeded"; "failed"; "retried"; "rejected"; "revoked"].

(** The kinds the dispatcher hands to [task_handler] (lines 52-59). *)
Definition task_kinds : list string :=
  ["succeeded"; "sent"; "received"; "started"; "failed"; "rejected";
   "revoked"; "retried"].

(** A task-lifecycle event as the broker delivers it: its type is the kind
    behind the prefix [task-], its identifier a string, its timestamp a
    float.  Other fields may be present. *)
Record task_event (ev : event) (kind uuid : string) (ts : spec_float) : Prop := {
  te_type : Py.lookup "type" ev = Some (PStr ("task-" ++ kind));
  te_uuid : Py.lookup "uuid" ev = Some (PStr uuid);
  te_timestamp : Py.lookup "timestamp" ev = Some (PFloat ts)
}.

(** A worker-presence event: of type [worker-heartbeat] or [worker-online],
    with the worker's host name. *)
Definition worker_event (ev : event) (hostname : string) : Prop :=
  (Py.lookup "type" ev = Some (PStr "worker-heartbeat") \/
   Py.lookup "type" ev = Some (PStr "worker-online")) /\
  Py.lookup "hostname" ev = Some (PStr hostname).

(** The entry of [uuid] that the store holds, expired or not: its record
    and the time of its insertion. *)
Definition stored (uuid : string) (w : World) : option (TaskRecord * spec_float) :=
  OrderedDict.find (PStr uuid) (items (tuids w)).

(** The [n]-th reading of the clock from now on finds an entry inserted at
    [t] young enough. *)
Definition fresh_at (w : World) (n : nat) (t : spec_float) : Prop :=
  fresh (max_age (tuids w)) (clock w (n + ticks w)%nat) t = true.

(** The entries left when a new one is about to be written: at capacity the
    oldest has gone. *)
Definition evicted (w : World) : list OrderedDict.entry :=
  if Z.of_nat (List.length (items (tuids w))) =? max_len (tuids w)
  then tl (items (tuids w)) else items (tuids w).

(** The reported duration [d] is the number [x]: the same float, or [0.0]
    where [x] is a zero of either sign ([x or 0.] turns [-0.0] into [0.0]). *)
Definition same_seconds (d x : spec_float) : Prop :=
  d = x \/ (d = PyFloat.zero /\ PyFloat.eqb x PyFloat.zero = true).

(** The duration a terminal event stamped [ts] reports for a record whose
    ['started'] field is [started]. *)
Definition terminal_duration (ts : spec_float) (started : pyval) : pyval :=
  match started with
  | PFloat s =>
      if PyFloat.is_zero s then PFloat PyFloat.zero
      else Py.or_ (PFloat (PyFloat.sub ts s)) (PFloat PyFloat.zero)
  | _ => PFloat PyFloat.zero
  end.

(** A record as the handler builds it from events whose timestamps are
    finite floats: ['received'] is such a float, ['started'] is the [0] of
    line 83 or such a float. *)
Definition record_wf (r : TaskRecord) : Prop :=
  (exists f, r_received r = PFloat f /\ PyFloat.finite f = true) /\
  (r_started r = PInt 0 \/
   exists s, r_started r = PFloat s /\ PyFloat.finite s = true).

Definition store_wf (w : World) : Prop :=
  Forall (fun e : OrderedDict.entry => record_wf (fst (snd e))) (items (tuids w)).

(** What is known of the duration [f] reported for an event of kind [kind]
    stamped [ts], [rec] being the entry of its identifier before the event:
    - [received] and [sent] report [0.0];
    - [started] reports a non-negative number when the record was received
      no later than [ts];
    - a terminal kind reports [0.0] when ['started'] is unset, and a
      non-negative number when the task started no later than [ts]. *)
Definition duration_spec (kind : string) (ts : spec_float)
           (rec : option (TaskRecord * spec_float)) (f : spec_float) : Prop :=
  if ((kind =? "received") || (kind =? "sent"))%string then f = PyFloat.zero
  else
    match rec with
    | None => False
    | Some (r, _) =>
        if (kind =? "started")%string then
          forall f0, r_received r = PFloat f0 -> PyFloat.leb f0 ts = true ->
                     PyFloat.leb PyFloat.zero f = true
        else if Py.truthy (r_started r) then
          forall s, r_started r = PFloat s -> PyFloat.leb s ts = true ->
                    PyFloat.leb PyFloat.zero f = true
        else f = PyFloat.zero
    end.

(** What a handler leaves as it is. *)
Definition same_frame (w w' : World) : Prop :=
  clock w' = clock w /\ max_age (tuids w') = max_age (tuids w) /\
  max_len (tuids w') = max_len (tuids w) /\
  heartbeats w' = heartbeats w /\ written w' = written w.

(** [set.add] on a set of strings, kept in the order of first insertion. *)
Definition add_host (h : string) (l : list string) : list string :=
  if existsb (String.eqb h) l then l else (l ++ [h])%list.

(** The set of the host names [hs], added one after the other to [l]. *)
Definition add_hosts (hs l : list string) : list string :=
  fold_left (fun l h => add_host h l) hs l.

(** The point reported for one queue. *)
Definition queue_point (nc : string * Z) : Metric :=
  QueueMetric (fst nc) (snd nc).

(** A computation that raises nothing but exceptions of class [Exception]. *)
Definition raises_only_Exception {A} (m : M A) : Prop :=
  forall w ex w', m w = (Raise ex, w') -> is_Exception ex = true.

(** ** Sample events and states *)

(** The float of a whole number of seconds. *)
Definition seconds (z : Z) : spec_float := PyFloat.of_Z z.

(** A clock that stands still. *)
Definition clock0 : nat -> spec_float := fun _ => seconds 1000.

Definition task_ev (kind uuid : string) (ts : spec_float) : event :=
  [("type", PStr ("task-" ++ kind)); ("uuid", PStr uuid);
   ("timestamp", PFloat ts)].

Definition named_task_ev (kind uuid name : string) (ts : spec_float) : event :=
  ("name", PStr name) :: task_ev kind uuid ts.

Definition worker_ev (ty hostname : string) : event :=
  [("type", PStr ty); ("hostname", PStr hostname)].

(** The state once [received(A, "add", 0)] has been handled. *)
Definition world_A : World :=
  snd (task_handler (named_task_ev "received" "A" "add" (seconds 0))
                    (initial clock0)).

(** The state once a [received] event for [A] with an empty name has been
    handled. *)
Definition world_A_unnamed : World :=
  snd (task_handler (named_task_ev "received" "A" "" (seconds 10))
                    (initial clock0)).

(** ** The vocabulary of the further properties *)

(** Every run of the computation [m] relates the state it starts from to
    the state it ends in by [R], however it ends. *)
Definition keeps {A} (R : World -> World -> Prop) (m : M A) : Prop :=
  forall w o w', m w = (o, w') -> R w w'.

(** A relation between states that every step of the store, the clock and
    the log respects. *)
Record Stable (R : World -> World -> Prop) : Prop := {
  st_refl : forall w, R w w;
  st_trans : forall w1 w2 w3, R w1 w2 -> R w2 w3 -> R w1 w3;
  st_tick : forall w, R w (set_ticks (S (ticks w)) w);
  st_log : forall w e, R w (set_logged (logged w ++ [e]) w);
  st_remove : forall w k,
    R w (set_items (OrderedDict.remove k (items (tuids w))) w);
  st_mutate : forall w k f,
    R w (set_items (OrderedDict.mutate k f (items (tuids w))) w)
}.

(** What [task_handler] has no business with: the heartbeat set, the points
    already committed, the clock and the bounds of the store; the count of
    clock readings only grows. *)
Definition handler_frame (w w' : World) : Prop :=
  heartbeats w' = heartbeats w /\ written w' = written w /\
  clock w' = clock w /\
  max_len (tuids w') = max_len (tuids w) /\
  max_age (tuids w') = max_age (tuids w) /\
  (ticks w <= ticks w')%nat.

(** No point has been reported. *)
Definition same_pending (w w' : World) : Prop := pending w' = pending w.

(** The store holds no more than [max_len] entries. *)
Definition within_capacity (w : World) : Prop :=
  Z.of_nat (List.length (items (tuids w))) <= max_len (tuids w).

(** The bound of the store stays, and so does the store within it. *)
Definition capacity_kept (w w' : World) : Prop :=
  max_len (tuids w') = max_len (tuids w) /\
  (0 < max_len (tuids w) -> within_capacity w -> within_capacity w').

(** No identifier gets an entry and the store does not grow. *)
Definition no_new_entry (w w' : World) : Prop :=
  (forall k, OrderedDict.find k (items (tuids w)) = None ->
             OrderedDict.find k (items (tuids w')) = None) /\
  (List.length (items (tuids w')) <= List.length (items (tuids w)))%nat.

(** A task metric with a task name that is not empty and a duration that is
    not [None]. *)
Definition well_reported (m : Metric) : Prop :=
  match m with
  | TaskMetric task _ d => Py.truthy task = true /\ d <> PNone
  | _ => False
  end.

(** Every run of [m] reports nothing, or one well-formed task metric. *)
Definition reports_at_most_one {A} (m : M A) : Prop :=
  forall w o w',
    m w = (o, w') ->
    pending w' = pending w \/
    exists x, well_reported x /\ pending w' = (pending w ++ [x])%list.

(** A lifecycle event as the broker sends it: of one of the eight kinds,
    with a string identifier, a finite float timestamp and, when it tells
    that a task was received, a name. *)
Definition complete_event (ev : event) : Prop :=
  exists kind U ts,
    task_event ev kind U ts /\ PyFloat.finite ts = true /\ In kind task_kinds /\
    (kind = "received" -> exists name, Py.lookup "name" ev = Some name).

(** The run is shorter than the age bound of line 47: no reading of the
    clock finds an entry stamped at another reading expired. *)
Definition short_run (clk : nat -> spec_float) : Prop :=
  forall n m, fresh (max_age tuids_init) (clk n) (clk m) = true.

Definition is_exception_log (e : LogEntry) : bool :=
  match e with LogException _ _ => true | _ => false end.

(** The entries that line 113 has written to the log. *)
Definition exceptions_logged (w : World) : list LogEntry :=
  filter is_exception_log (logged w).

(** An entry of the store in such a run: its record is well formed and its
    stamp is a reading of the clock. *)
Definition entry_ok (clk : nat -> spec_float) (e : OrderedDict.entry) : Prop :=
  record_wf (fst (snd e)) /\ exists m, snd (snd e) = clk m.

Definition run_ok (clk : nat -> spec_float) (w : World) : Prop :=
  clock w = clk /\ max_age (tuids w) = max_age tuids_init /\
  Forall (entry_ok clk) (items (tuids w)).

(** No queue or worker point is waiting for a commit. *)
Definition gauges_flushed (w : World) : Prop :=
  filter is_queue_metric (pending w) = [] /\
  filter is_worker_metric (pending w) = [].

(** What successive cycles write when no heartbeat arrives between them:
    the first one counts the [hb] workers seen so far, the next ones none. *)
Fixpoint cycles_report (hb : nat) (cycles : list (list (string * Z))) : list Metric :=
  match cycles with
  | [] => []
  | counts :: rest =>
      (map queue_point counts ++ [WorkerMetric hb] ++ cycles_report 0 rest)%list
  end.

(** A clock that jumps by a week after its first reading. *)
Definition clock_jump : nat -> spec_float :=
  fun n => match n with O => seconds 0 | _ => seconds 604800 end.

(** The state once [received(A, "add", 0)] has been handled under that
    clock: the record of [A] is a week old at the next reading. *)
Definition world_A_old : World :=
  snd (task_handler (named_task_ev "received" "A" "add" (seconds 0))
                    (initial clock_jump)).

(** ** Facts about binary64 subtraction and comparison *)

Module FloatFacts.

Lemma shr_1_nonneg mrs : 0 <= shr_m mrs -> 0 <= shr_m (shr_1 mrs).
Proof.
  destruct mrs as [m r s]; simpl.
  destruct m as [|p|p]; simpl; try lia; destruct p; simpl; lia.
Qed.

Lemma iter_shr_1_nonneg p : forall mrs,
  0 <= shr_m mrs -> 0 <= shr_m (iter_pos shr_1 p mrs).
Proof.
  induction p; intros mrs H; simpl; auto using shr_1_nonneg.
Qed.

Lemma shr_nonneg mrs e n : 0 <= shr_m mrs -> 0 <= shr_m (fst (shr mrs e n)).
Proof.
  intros H. destruct n; simpl; auto using iter_shr_1_nonneg.
Qed.

Lemma shr_record_of_loc_m m l : shr_m (shr_record_of_loc m l) = m.
Proof. destruct l as [|[]]; reflexivity. Qed.

Lemma shr_fexp_nonneg p m e l :
  0 <= m -> 0 <= shr_m (fst (shr_fexp p PyFloat.emax m e l)).
Proof.
  intros H. unfold shr_fexp. apply shr_nonneg.
  now rewrite shr_record_of_loc_m.
Qed.

Lemma round_nearest_even_nonneg m l : 0 <= m -> 0 <= round_nearest_even m l.
Proof.
  intros H. destruct l as [|[]]; simpl; try lia.
  destruct (Z.even m); lia.
Qed.

Lemma binary_round_aux_signed sx mx ex lx :
  0 <= mx -> PyFloat.signed sx (binary_round_aux PyFloat.prec PyFloat.emax sx mx ex lx).
Proof.
  intros H. unfold binary_round_aux.
  pose proof (shr_fexp_nonneg PyFloat.prec mx ex lx H) as H1.
  destruct (shr_fexp PyFloat.prec PyFloat.emax mx ex lx) as [mrs' e'].
  simpl in H1.
  pose proof (shr_fexp_nonneg PyFloat.prec _ e' loc_Exact
                (round_nearest_even_nonneg _ (loc_of_shr_record mrs') H1)) as H2.
  destruct (shr_fexp PyFloat.prec PyFloat.emax
              (round_nearest_even (shr_m mrs') (loc_of_shr_record mrs')) e' loc_Exact)
    as [mrs'' e''].
  simpl in H2.
  destruct (shr_m mrs'') as [|m|m]; simpl; try reflexivity; try lia.
  destruct (e'' <=? _); simpl; reflexivity.
Qed.

Lemma binary_round_signed sx mx ex :
  PyFloat.signed sx (binary_round PyFloat.prec PyFloat.emax sx mx ex).
Proof.
  unfold binary_round.
  destruct (shl_align mx ex _) as [mz ez].
  apply binary_round_aux_signed. lia.
Qed.

Lemma binary_normalize_nonneg m e :
  0 <= m -> PyFloat.signed false (binary_normalize PyFloat.prec PyFloat.emax m e false).
Proof.
  intros H. destruct m as [|p|p]; simpl; try reflexivity; try lia.
  apply binary_round_signed.
Qed.

Lemma signed_false_leb r : PyFloat.signed false r -> PyFloat.leb PyFloat.zero r = true.
Proof.
  destruct r as [s|s| |s m e]; simpl; intros H; subst; try reflexivity; tauto.
Qed.

Lemma iter_xO m d : Z.pos (Pos.iter xO m d) = Z.pos m * 2 ^ Z.pos d.
Proof.
  induction d using Pos.peano_ind.
  - simpl. lia.
  - rewrite Pos.iter_succ, Pos2Z.inj_succ, Z.pow_succ_r by lia.
    rewrite Pos2Z.inj_xO, IHd. lia.
Qed.

Lemma shl_align_fst m e ez :
  ez <= e -> Z.pos (fst (shl_align m e ez)) = Z.pos m * 2 ^ (e - ez).
Proof.
  intros H. unfold shl_align.
  destruct (ez - e) as [|d|d] eqn:E; cbn [fst].
  - replace (e - ez) with 0 by lia. rewrite Z.pow_0_r. lia.
  - lia.
  - rewrite iter_xO. replace (e - ez) with (Z.pos d) by lia. reflexivity.
Qed.

Lemma digits2_pos_bounds m :
  2 ^ (Z.pos (digits2_pos m) - 1) <= Z.pos m < 2 ^ Z.pos (digits2_pos m).
Proof.
  induction m as [m IH|m IH|]; simpl digits2_pos.
  - rewrite Pos2Z.inj_succ.
    replace (Z.succ (Z.pos (digits2_pos m)) - 1) with (Z.succ (Z.pos (digits2_pos m) - 1)) by lia.
    rewrite !Z.pow_succ_r by lia. lia.
  - rewrite Pos2Z.inj_succ.
    replace (Z.succ (Z.pos (digits2_pos m)) - 1) with (Z.succ (Z.pos (digits2_pos m) - 1)) by lia.
    rewrite !Z.pow_succ_r by lia. lia.
  - simpl. lia.
Qed.

(** Of two canonical mantissas, the one with the larger exponent is the
    larger number. *)
Lemma bounded_exponent_lt m1 e1 m2 e2 :
  bounded PyFloat.prec PyFloat.emax m1 e1 = true ->
  bounded PyFloat.prec PyFloat.emax m2 e2 = true ->
  e1 < e2 ->
  Z.pos m1 < Z.pos m2 * 2 ^ (e2 - e1).
Proof.
  unfold bounded, canonical_mantissa, fexp, emin, PyFloat.prec, PyFloat.emax.
  intros H1 H2 Hlt.
  apply andb_prop in H1, H2. destruct H1 as [H1 _], H2 as [H2 _].
  apply Z.eqb_eq in H1, H2.
  pose proof (digits2_pos_bounds m1) as [_ B1].
  pose proof (digits2_pos_bounds m2) as [B2 _].
  assert (D2 : Z.pos (digits2_pos m2) = 53) by lia.
  assert (D1 : Z.pos (digits2_pos m1) <= 53) by lia.
  rewrite D2 in B2.
  assert (Z.pos m1 < 2 ^ 53).
  { eapply Z.lt_le_trans; [exact B1|]. apply Z.pow_le_mono_r; lia. }
  assert (2 ^ 1 <= 2 ^ (e2 - e1)) by (apply Z.pow_le_mono_r; lia).
  change (2 ^ (53 - 1)) with 4503599627370496 in B2.
  change (2 ^ 53) with 9007199254740992 in H.
  change (2 ^ 1) with 2 in H0.
  nia.
Qed.

Lemma compare_cont_Eq m1 m2 :
  Pos.compare_cont Eq m1 m2 = (Z.pos m1 ?= Z.pos m2).
Proof. reflexivity. Qed.

(** The difference of two finite floats is a non-negative float (a zero,
    a positive number or the positive infinity) when the one subtracted
    is not the larger. *)
Lemma sub_nonneg x y :
  PyFloat.finite x = true -> PyFloat.finite y = true ->
  PyFloat.leb y x = true ->
  PyFloat.leb PyFloat.zero (PyFloat.sub x y) = true.
Proof.
  intros Fx Fy Hle.
  destruct x as [sx|sx| |sx mx ex]; try discriminate Fx;
    destruct y as [sy|sy| |sy my ey]; try discriminate Fy.
  - destruct sx, sy; reflexivity.
  - destruct sy; [reflexivity | discriminate Hle].
  - destruct sx; [discriminate Hle | reflexivity].
  - apply signed_false_leb. simpl in Fx, Fy.
    unfold PyFloat.sub, SFsub.
    apply binary_normalize_nonneg.
    set (ez := Z.min ex ey).
    rewrite !shl_align_fst by (subst ez; lia).
    unfold PyFloat.leb, SFleb, SFcompare in Hle.
    assert (P1 : 0 < 2 ^ (ex - ez)) by (apply Z.pow_pos_nonneg; subst ez; lia).
    assert (P2 : 0 < 2 ^ (ey - ez)) by (apply Z.pow_pos_nonneg; subst ez; lia).
    destruct sx, sy; try discriminate Hle; unfold cond_Zopp.
    + (* both negative *)
      destruct (ey ?= ex) eqn:C; try discriminate Hle.
      * apply Z.compare_eq in C. subst ey.
        rewrite compare_cont_Eq in Hle.
        destruct (Z.pos my ?= Z.pos mx) eqn:C'; try discriminate Hle.
        -- apply Z.compare_eq in C'. nia.
        -- apply -> Z.compare_gt_iff in C'. nia.
      * apply -> Z.compare_gt_iff in C.
        pose proof (bounded_exponent_lt mx ex my ey Fx Fy C) as B.
        replace ez with ex in * by (subst ez; lia).
        rewrite Z.sub_diag, Z.pow_0_r.
        lia.
    + (* x positive, y negative *) nia.
    + (* both positive *)
      destruct (ey ?= ex) eqn:C; try discriminate Hle.
      * apply Z.compare_eq in C. subst ey.
        rewrite compare_cont_Eq in Hle.
        destruct (Z.pos my ?= Z.pos mx) eqn:C'; try discriminate Hle.
        -- apply Z.compare_eq in C'. nia.
        -- change (Z.pos my < Z.pos mx) in C'. nia.
      * change (ey < ex) in C.
        pose proof (bounded_exponent_lt my ey mx ex Fy Fx C) as B.
        replace ez with ey in * by (subst ez; lia).
        rewrite Z.sub_diag, Z.pow_0_r.
        lia.
Qed.

End FloatFacts.

(** ** Facts about the dictionary *)

Lemma key_eqb_str_refl (s : string) : Py.key_eqb (PStr s) (PStr s) = true.
Proof. simpl. apply String.eqb_refl. Qed.

Lemma find_remove k l :
  OrderedDict.find k (OrderedDict.remove k l) = None.
Proof.
  induction l as [|[k' v] l IH]; simpl; auto.
  destruct (Py.key_eqb k' k) eqn:E; simpl; auto. now rewrite E.
Qed.

Lemma find_remove_none k k' l :
  OrderedDict.find k l = None ->
  OrderedDict.find k (OrderedDict.remove k' l) = None.
Proof.
  induction l as [|[k0 v] l IH]; simpl; auto.
  destruct (Py.key_eqb k0 k) eqn:E; [discriminate|].
  intros H. destruct (Py.key_eqb k0 k'); simpl; auto. rewrite E; auto.
Qed.

Lemma find_store_same k v l :
  Py.key_eqb k k = true ->
  OrderedDict.find k (OrderedDict.store k v l) = Some v.
Proof.
  intros R. induction l as [|[k' v'] l IH]; simpl.
  - now rewrite R.
  - destruct (Py.key_eqb k' k) eqn:E; simpl; now rewrite E.
Qed.

Lemma find_mutate k f l :
  OrderedDict.find k (OrderedDict.mutate k f l) =
  match OrderedDict.find k l with
  | Some (r, t) => Some (f r, t)
  | None => None
  end.
Proof.
  induction l as [|[k' [r t]] l IH]; simpl; auto.
  destruct (Py.key_eqb k' k) eqn:E; simpl; now rewrite E.
Qed.

Lemma find_In k l v : OrderedDict.find k l = Some v -> exists k', In (k', v) l.
Proof.
  induction l as [|[k0 v0] l IH]; simpl; [discriminate|].
  destruct (Py.key_eqb k0 k).
  - intros [= <-]. eauto.
  - intros H. destruct (IH H) as [k' Hk']. eauto.
Qed.

Section ForallStore.

Variable P : TaskRecord -> Prop.
Let Q := fun e : OrderedDict.entry => P (fst (snd e)).

Lemma Forall_remove k l : Forall Q l -> Forall Q (OrderedDict.remove k l).
Proof.
  induction 1 as [|[k' v] l Hx Hl IH]; simpl; auto.
  destruct (Py.key_eqb k' k); auto.
Qed.

Lemma Forall_store k r t l :
  P r -> Forall Q l -> Forall Q (OrderedDict.store k (r, t) l).
Proof.
  intros Hr. induction 1 as [|[k' v] l Hx Hl IH]; simpl.
  - repeat constructor. exact Hr.
  - destruct (Py.key_eqb k' k); constructor; auto.
Qed.

Lemma Forall_mutate k f l :
  (forall r, P r -> P (f r)) -> Forall Q l -> Forall Q (OrderedDict.mutate k f l).
Proof.
  intros Hf. induction 1 as [|[k' [r t]] l Hx Hl IH]; simpl; auto.
  destruct (Py.key_eqb k' k); constructor; auto. apply Hf. exact Hx.
Qed.

Lemma Forall_evicted w : Forall Q (items (tuids w)) -> Forall Q (evicted w).
Proof.
  intros H. unfold evicted.
  destruct (_ =? _); auto. destruct H; simpl; auto.
Qed.

End ForallStore.

Lemma stored_wf U w r t : store_wf w -> stored U w = Some (r, t) -> record_wf r.
Proof.
  unfold store_wf, stored. intros Hwf Hst.
  destruct (find_In _ _ _ Hst) as [k' Hin].
  rewrite Forall_forall in Hwf. exact (Hwf _ Hin).
Qed.

Lemma app_one_neq {A} (l : list A) (a : A) : l <> (l ++ [a])%list.
Proof.
  intros H. apply (f_equal (@List.length A)) in H.
  rewrite length_app in H. simpl in H. lia.
Qed.

Lemma app_one_inj {A} (l : list A) (a b : A) : (l ++ [a] = l ++ [b])%list -> a = b.
Proof. intros H. apply app_inv_head in H. now injection H. Qed.

(** ** The value of [duration or 0.] *)

Lemma or_zero_same x :
  exists d, Py.or_ (PFloat x) (PFloat PyFloat.zero) = PFloat d /\ same_seconds d x.
Proof.
  unfold Py.or_, same_seconds. simpl.
  destruct x as [s|s| |s m e]; simpl; eauto.
Qed.

Lemma or_zero_nonneg x :
  PyFloat.leb PyFloat.zero x = true ->
  exists f, Py.or_ (PFloat x) (PFloat PyFloat.zero) = PFloat f /\
            PyFloat.leb PyFloat.zero f = true.
Proof.
  intros H. unfold Py.or_. simpl.
  destruct (PyFloat.is_zero x); simpl; eauto.
Qed.

(** ** Equations of the operations *)

Lemma bind_eq {A B} (m : M A) (k : A -> M B) w :
  bind m k w = match m w with
               | (Normal a, w') => k a w'
               | (Return, w') => (Return, w')
               | (Raise ex, w') => (Raise ex, w')
               end.
Proof. reflexivity. Qed.

Lemma for_each_cons_normal {A} (h : A -> M unit) a l w w' :
  h a w = (Normal tt, w') -> for_each h (a :: l) w = for_each h l w'.
Proof. intros H. simpl. now rewrite bind_eq, H. Qed.

Lemma py_getitem_eq ev k v w :
  Py.lookup k ev = Some v -> py_getitem ev k w = (Normal v, w).
Proof. unfold py_getitem. now intros ->. Qed.

Lemma tuids_contains_eq U w :
  tuids_contains (PStr U) w =
  match OrderedDict.find (PStr U) (items (tuids w)) with
  | None => (Normal false, w)
  | Some (_, t) =>
      if fresh (max_age (tuids w)) (clock w (ticks w)) t
      then (Normal true, set_ticks (S (ticks w)) w)
      else (Normal false,
            set_items (OrderedDict.remove (PStr U) (items (tuids w)))
                      (set_ticks (S (ticks w)) w))
  end.
Proof.
  unfold tuids_contains, bind; simpl.
  destruct (OrderedDict.find (PStr U) (items (tuids w))) as [[r t]|]; simpl; auto.
  unfold bind; simpl.
  destruct (fresh _ _ _); reflexivity.
Qed.

Lemma tuids_getitem_eq U w :
  tuids_getitem (PStr U) w =
  match OrderedDict.find (PStr U) (items (tuids w)) with
  | None => (Raise KeyError, w)
  | Some (r, t) =>
      if fresh (max_age (tuids w)) (clock w (ticks w)) t
      then (Normal r, set_ticks (S (ticks w)) w)
      else (Raise KeyError,
            set_items (OrderedDict.remove (PStr U) (items (tuids w)))
                      (set_ticks (S (ticks w)) w))
  end.
Proof.
  unfold tuids_getitem, bind; simpl.
  destruct (OrderedDict.find (PStr U) (items (tuids w))) as [[r t]|]; simpl; auto.
  unfold bind; simpl.
  destruct (fresh _ _ _); reflexivity.
Qed.

Lemma tuids_delitem_eq U w :
  tuids_delitem (PStr U) w =
  match OrderedDict.find (PStr U) (items (tuids w)) with
  | None => (Raise KeyError, w)
  | Some _ =>
      (Normal tt, set_items (OrderedDict.remove (PStr U) (items (tuids w))) w)
  end.
Proof.
  unfold tuids_delitem, bind; simpl.
  destruct (OrderedDict.find (PStr U) (items (tuids w))) as [[r t]|]; reflexivity.
Qed.

Lemma tuids_update_eq U v w :
  tuids_update (PStr U) v w =
  (Normal tt,
   set_items (OrderedDict.store (PStr U) (v, clock w (ticks w)) (evicted w))
             (set_ticks (S (ticks w)) w)).
Proof.
  unfold tuids_update, evicted, bind, when; simpl.
  destruct (Z.of_nat (List.length (items (tuids w))) =? max_len (tuids w));
    reflexivity.
Qed.

Arguments PyFloat.sub : simpl never.
Arguments PyFloat.of_Z : simpl never.
Arguments fresh : simpl never.
Arguments tuids_contains : simpl never.
Arguments tuids_getitem : simpl never.
Arguments tuids_delitem : simpl never.
Arguments tuids_update : simpl never.
Arguments py_getitem : simpl never.

(** Symbolic execution of a handler: the next statement is run by its
    equation and tests are settled by the hypotheses at hand. *)
Ltac exec_step :=
  first
    [ rewrite bind_eq
    | rewrite tuids_contains_eq
    | rewrite tuids_getitem_eq
    | rewrite tuids_delitem_eq
    | rewrite tuids_update_eq
    | progress cbn
    | rewrite String.eqb_refl
    | rewrite find_remove
    | rewrite find_mutate
    | match goal with
      | H : OrderedDict.find ?k ?l = _ |- context [OrderedDict.find ?k ?l] => rewrite H
      | H : Py.lookup ?k ?e = _ |- context [py_getitem ?e ?k] =>
          rewrite (py_getitem_eq _ _ _ _ H)
      | H : Py.truthy ?x = _ |- context [Py.truthy ?x] => rewrite H
      | H : r_started ?r = _ |- context [r_started ?r] => rewrite H
      | H : r_received ?r = _ |- context [r_received ?r] => rewrite H
      | H : fresh ?d ?n ?t = _ |- context [fresh ?d ?n ?t] => rewrite H
      | H : ?b = true |- context [if ?b then _ else _] => progress rewrite H
      | H : ?b = false |- context [if ?b then _ else _] => progress rewrite H
      | H : ?b = false |- context [negb ?b] => progress rewrite H
      | H : ?b = true |- context [negb ?b] => progress rewrite H
      end ].

Ltac exec := repeat exec_step.

(** The same, a reading of the clock about which nothing is known
    splitting the run in two. *)
Ltac exec_all :=
  repeat first
    [ exec_step
    | match goal with
      | |- context [if fresh ?d ?n ?t then _ else _] => destruct (fresh d n t) eqn:?
      end ].

Ltac start_handler :=
  unfold task_handler, task_handler_body, call, try_except_Exception.

Ltac no_emission :=
  match goal with
  | H : ?l = (?l ++ [_])%list |- _ => exfalso; exact (app_one_neq _ _ H)
  end.

(** ** The tests on the kind of an event *)

Lemma terminal_kind_tests kind :
  In kind terminal_kinds ->
  (kind =? "received")%string = false /\
  (kind =? "started")%string = false /\
  Py.in_strs (PStr kind) terminal_kinds = true.
Proof.
  simpl. intros H. repeat destruct H as [<-|H]; try tauto; repeat split; reflexivity.
Qed.

Ltac kind_tests Hk :=
  let K1 := fresh "K" in
  let K2 := fresh "K" in
  let K3 := fresh "K" in
  destruct (terminal_kind_tests _ Hk) as (K1 & K2 & K3); cbn in K3.

Lemma started_or_terminal_cases (P : string -> Prop) kind :
  In kind ("started" :: terminal_kinds) ->
  P "started" -> P "succeeded" -> P "failed" -> P "retried" -> P "rejected" ->
  P "revoked" -> P kind.
Proof.
  simpl. intros H. repeat destruct H as [<-|H]; tauto.
Qed.

Lemma task_kind_cases kind :
  In kind task_kinds ->
  kind = "received" \/ kind = "sent" \/ kind = "started" \/ In kind terminal_kinds.
Proof.
  intros Hk. simpl in Hk. repeat destruct Hk as [<-|Hk]; simpl; intuition auto.
Qed.

Lemma task_ev_event kind U ts : task_event (task_ev kind U ts) kind U ts.
Proof. constructor; reflexivity. Qed.

Lemma named_task_ev_event kind U name ts :
  task_event (named_task_ev kind U name ts) kind U ts.
Proof. constructor; reflexivity. Qed.

(** ** One event at a time *)

(** A [received] event with a name: the record is written and a metric of
    duration [0.0] is reported. *)
Lemma received_step ev U ts name w :
  task_event ev "received" U ts ->
  Py.lookup "name" ev = Some name -> Py.truthy name = true ->
  exists w',
    task_handler ev w = (Normal tt, w') /\
    pending w' =
      (pending w ++ [TaskMetric name (PStr "received") (PFloat PyFloat.zero)])%list /\
    stored U w' = Some (mkTaskRecord name (PFloat ts) (PInt 0), clock w (ticks w)) /\
    ticks w' = S (ticks w) /\ same_frame w w'.
Proof.
  intros [Hty Hid Hts] Hname Hn.
  eexists. split.
  - start_handler. exec. reflexivity.
  - unfold stored, same_frame. cbn. repeat split.
    apply find_store_same, key_eqb_str_refl.
Qed.

(** A [started] event for a record that none of the five readings of the
    clock finds expired: the start is recorded and the time waited is
    reported. *)
Lemma started_step ev U ts w r t f0 :
  task_event ev "started" U ts ->
  stored U w = Some (r, t) ->
  (forall n, (n < 5)%nat -> fresh_at w n t) ->
  Py.truthy (r_name r) = true ->
  r_received r = PFloat f0 ->
  exists w',
    task_handler ev w = (Normal tt, w') /\
    pending w' =
      (pending w ++
       [TaskMetric (r_name r) (PStr "started")
                   (Py.or_ (PFloat (PyFloat.sub ts f0)) (PFloat PyFloat.zero))])%list /\
    stored U w' = Some (mkTaskRecord (r_name r) (PFloat f0) (PFloat ts), t) /\
    ticks w' = (5 + ticks w)%nat /\ same_frame w w'.
Proof.
  intros [Hty Hid Hts] Hst Hf Hn Hr. unfold stored, fresh_at in *.
  pose proof (Hf 0%nat ltac:(lia)) as F0. pose proof (Hf 1%nat ltac:(lia)) as F1.
  pose proof (Hf 2%nat ltac:(lia)) as F2. pose proof (Hf 3%nat ltac:(lia)) as F3.
  pose proof (Hf 4%nat ltac:(lia)) as F4. cbn in F0, F1, F2, F3, F4. clear Hf.
  eexists. split.
  - start_handler. exec. reflexivity.
  - unfold same_frame. cbn. rewrite find_mutate, Hst, Hr. repeat split.
Qed.

(** A terminal event for a named record that no reading of the clock finds
    expired: the execution time is reported and the record deleted. *)
Lemma terminal_step ev kind U ts w r t :
  task_event ev kind U ts -> In kind terminal_kinds ->
  stored U w = Some (r, t) ->
  (forall n, (n < 4)%nat -> fresh_at w n t) ->
  Py.truthy (r_name r) = true ->
  (r_started r = PInt 0 \/ exists s, r_started r = PFloat s) ->
  exists w',
    task_handler ev w = (Normal tt, w') /\
    pending w' =
      (pending w ++
       [TaskMetric (r_name r) (PStr kind) (terminal_duration ts (r_started r))])%list /\
    stored U w' = None /\ same_frame w w'.
Proof.
  intros [Hty Hid Hts] Hk Hst Hf Hn Hs. unfold stored, fresh_at in *.
  kind_tests Hk.
  pose proof (Hf 0%nat ltac:(lia)) as F0. pose proof (Hf 1%nat ltac:(lia)) as F1.
  pose proof (Hf 2%nat ltac:(lia)) as F2. pose proof (Hf 3%nat ltac:(lia)) as F3.
  cbn in F0, F1, F2, F3. clear Hf.
  destruct Hs as [Hs|[s Hs]].
  - eexists. split.
    + start_handler. exec. reflexivity.
    + unfold same_frame. cbn. rewrite find_remove, Hs. repeat split.
  - destruct (PyFloat.is_zero s) eqn:Z.
    + eexists. split.
      * start_handler. exec. reflexivity.
      * unfold same_frame. cbn. rewrite find_remove, Hs. cbn. rewrite Z. repeat split.
    + eexists. split.
      * start_handler. exec. reflexivity.
      * unfold same_frame. cbn. rewrite find_remove, Hs. cbn. rewrite Z. repeat split.
Qed.

(** A [started] or terminal event whose record the first reading of the
    clock finds expired: the entry is purged, nothing is reported and
    nothing is logged. *)
Lemma expired_identifier_dropped ev kind U ts w r t :
  task_event ev kind U ts ->
  In kind ("started" :: terminal_kinds) ->
  stored U w = Some (r, t) ->
  fresh (max_age (tuids w)) (clock w (ticks w)) t = false ->
  exists w',
    task_handler ev w = (Normal tt, w') /\
    pending w' = pending w /\ logged w' = logged w /\ stored U w' = None.
Proof.
  intros [Hty Hid Hts] Hk Hst Hf. unfold stored in *.
  revert Hty. pattern kind. apply (started_or_terminal_cases _ _ Hk); intros Hty.
  all: eexists; split; [start_handler; exec; reflexivity|].
  all: cbn; rewrite find_remove; repeat split.
Qed.

(** The records stay well formed as long as the events carry finite float
    timestamps; at start-up there is none. *)
Lemma store_wf_initial clk : store_wf (initial clk).
Proof. constructor. Qed.

Lemma store_wf_preserved ev kind U ts w :
  task_event ev kind U ts -> PyFloat.finite ts = true ->
  In kind task_kinds ->
  store_wf w -> store_wf (snd (task_handler ev w)).
Proof.
  intros [Hty Hid Hts] Hfin Hk Hwf. unfold store_wf in *.
  assert (Hnew : forall n, record_wf (mkTaskRecord n (PFloat ts) (PInt 0))).
  { intros n. split; simpl; eauto. }
  assert (Hset : forall r, record_wf r ->
                           record_wf (mkTaskRecord (r_name r) (r_received r) (PFloat ts))).
  { intros r [Hr _]. split; simpl; eauto. }
  destruct (task_kind_cases _ Hk) as [->|[->|[->|Hk']]]; clear Hk.
  - start_handler.
    destruct (Py.lookup "name" ev) as [name|] eqn:Hname;
      [destruct (Py.truthy name) eqn:Hn|].
    + exec. auto using Forall_store, Forall_evicted.
    + exec. auto using Forall_store, Forall_evicted.
    + unfold py_getitem at 3. rewrite Hname. exec. auto.
  - start_handler.
    destruct (OrderedDict.find (PStr U) (items (tuids w))) as [[r t]|] eqn:Hst.
    + destruct (Py.truthy (r_name r)) eqn:Hn; exec_all; auto using Forall_remove.
    + exec. auto.
  - start_handler.
    destruct (OrderedDict.find (PStr U) (items (tuids w))) as [[r t]|] eqn:Hst.
    + assert (Hr : record_wf r).
      { destruct (find_In _ _ _ Hst) as [k' Hin].
        rewrite Forall_forall in Hwf. exact (Hwf _ Hin). }
      destruct Hr as [(f0 & Hr & _) _].
      destruct (Py.truthy (r_name r)) eqn:Hn; exec_all;
        auto using Forall_remove, Forall_mutate.
    + exec. auto.
  - kind_tests Hk'. start_handler.
    destruct (OrderedDict.find (PStr U) (items (tuids w))) as [[r t]|] eqn:Hst.
    + assert (Hr : record_wf r).
      { destruct (find_In _ _ _ Hst) as [k' Hin].
        rewrite Forall_forall in Hwf. exact (Hwf _ Hin). }
      destruct Hr as [_ [Hs|(s & Hs & _)]].
      * destruct (Py.truthy (r_name r)) eqn:Hn; exec_all; auto using Forall_remove.
      * destruct (Py.truthy (r_name r)) eqn:Hn; exec_all; auto using Forall_remove;
          destruct (PyFloat.is_zero s); exec_all; auto using Forall_remove.
    + exec. auto.
Qed.

(** ** The life of one task *)

(** C1, as the code has it.  Events [received(U, t0)], [started(U, t1)] and
    a terminal event [(U, t2)] with [t0 <= t1 <= t2], handled in this order
    on an initially empty store, report exactly three metrics, of durations
    [0.0], [t1 - t0] and [t2 - t1], and leave no entry for [U], provided
    that the task has a non-empty name, that [t1] is not zero (a ['started']
    field of [0] reads as "not started"), and that none of the nine
    readings of the clock that follow the insertion finds the record older
    than [max_age]. *)
Theorem lifecycle_durations e0 e1 e2 kind U name t0 t1 t2 w :
  task_event e0 "received" U t0 ->
  Py.lookup "name" e0 = Some (PStr name) -> name <> "" ->
  task_event e1 "started" U t1 ->
  task_event e2 kind U t2 -> In kind terminal_kinds ->
  PyFloat.leb t0 t1 = true -> PyFloat.leb t1 t2 = true ->
  PyFloat.is_zero t1 = false ->
  tuids w = tuids_init ->
  (forall n, (1 <= n <= 9)%nat ->
             fresh (max_age tuids_init) (clock w (n + ticks w)%nat)
                   (clock w (ticks w)) = true) ->
  exists w' d1 d2,
    for_each task_handler [e0; e1; e2] w = (Normal tt, w') /\
    pending w' =
      (pending w ++
       [TaskMetric (PStr name) (PStr "received") (PFloat PyFloat.zero);
        TaskMetric (PStr name) (PStr "started") (PFloat d1);
        TaskMetric (PStr name) (PStr kind) (PFloat d2)])%list /\
    same_seconds d1 (PyFloat.sub t1 t0) /\
    same_seconds d2 (PyFloat.sub t2 t1) /\
    stored U w' = None.
Proof.
  intros E0 Hname Hne E1 E2 Hk _ _ Hnz Hinit Hfresh.
  assert (Hn : Py.truthy (PStr name) = true).
  { simpl. apply String.eqb_neq in Hne. now rewrite Hne. }
  destruct (received_step e0 U t0 (PStr name) w E0 Hname Hn)
    as (w1 & R1 & P1 & S1 & T1 & C1 & A1 & _).
  assert (F1 : forall n, (n < 5)%nat -> fresh_at w1 n (clock w (ticks w))).
  { intros n Hlt. unfold fresh_at. rewrite A1, C1, T1, Hinit.
    replace (n + S (ticks w))%nat with (S n + ticks w)%nat by lia.
    apply Hfresh. lia. }
  destruct (started_step e1 U t1 w1 _ _ t0 E1 S1 F1 Hn eq_refl)
    as (w2 & R2 & P2 & S2 & T2 & C2 & A2 & _).
  assert (F2 : forall n, (n < 4)%nat -> fresh_at w2 n (clock w (ticks w))).
  { intros n Hlt. unfold fresh_at. rewrite A2, C2, T2, A1, C1, T1, Hinit.
    replace (n + (5 + S (ticks w)))%nat with (n + 6 + ticks w)%nat by lia.
    apply Hfresh. lia. }
  destruct (terminal_step e2 kind U t2 w2 _ _ E2 Hk S2 F2 Hn
              (or_intror (ex_intro _ t1 eq_refl)))
    as (w3 & R3 & P3 & S3 & _).
  destruct (or_zero_same (PyFloat.sub t1 t0)) as (d1 & D1 & Q1).
  destruct (or_zero_same (PyFloat.sub t2 t1)) as (d2 & D2 & Q2).
  exists w3, d1, d2. repeat split; auto.
  - rewrite (for_each_cons_normal _ _ _ _ _ R1), (for_each_cons_normal _ _ _ _ _ R2),
      (for_each_cons_normal _ _ _ _ _ R3). reflexivity.
  - rewrite P3, P2, P1. cbn [r_name r_started terminal_duration]. rewrite Hnz, D1, D2.
    rewrite <- !app_assoc. reflexivity.
Qed.

(** The theorem at [received(A, "add", 0)], [started(A, 5)], [failed(A, 9)]. *)
Lemma lifecycle_durations_witness :
  exists w' d1 d2,
    for_each task_handler
      [named_task_ev "received" "A" "add" (seconds 0);
       task_ev "started" "A" (seconds 5);
       task_ev "failed" "A" (seconds 9)] (initial clock0) = (Normal tt, w') /\
    pending w' =
      (pending (initial clock0) ++
       [TaskMetric (PStr "add") (PStr "received") (PFloat PyFloat.zero);
        TaskMetric (PStr "add") (PStr "started") (PFloat d1);
        TaskMetric (PStr "add") (PStr "failed") (PFloat d2)])%list /\
    same_seconds d1 (PyFloat.sub (seconds 5) (seconds 0)) /\
    same_seconds d2 (PyFloat.sub (seconds 9) (seconds 5)) /\
    stored "A" w' = None.
Proof.
  apply lifecycle_durations.
  - apply named_task_ev_event.
  - reflexivity.
  - discriminate.
  - apply task_ev_event.
  - apply task_ev_event.
  - simpl; auto.
  - reflexivity.
  - reflexivity.
  - reflexivity.
  - reflexivity.
  - intros n _. reflexivity.
Defined.

(** The scenario of the specification, with its numbers: the metrics
    [(add, received, 0)], [(add, started, 5)] and [(add, failed, 4)], and an
    empty store afterwards. *)
Example lifecycle_scenario :
  let w' := snd (for_each task_handler
                   [named_task_ev "received" "A" "add" (seconds 0);
                    task_ev "started" "A" (seconds 5);
                    task_ev "failed" "A" (seconds 9)] (initial clock0)) in
  pending w' =
    [TaskMetric (PStr "add") (PStr "received") (PFloat (seconds 0));
     TaskMetric (PStr "add") (PStr "started") (PFloat (seconds 5));
     TaskMetric (PStr "add") (PStr "failed") (PFloat (seconds 4))] /\
  items (tuids w') = [].
Proof. vm_compute. split; reflexivity. Qed.

(** A record that has outlived [max_age] when [started] arrives is purged
    and the event dropped: one metric only is reported. *)
Example expired_record_drops_started :
  let clk := fun n : nat => match n with O => seconds 0 | _ => seconds 604800 end in
  let w' := snd (for_each task_handler
                   [named_task_ev "received" "A" "add" (seconds 0);
                    task_ev "started" "A" (seconds 5)] (initial clk)) in
  pending w' =
    [TaskMetric (PStr "add") (PStr "received") (PFloat PyFloat.zero)] /\
  items (tuids w') = [].
Proof. vm_compute. split; reflexivity. Qed.

(** C1 fails as stated: with [t0 = t1 = 0] and [t2 = 9] the hypothesis
    [t0 <= t1 <= t2] holds, yet the third metric reports [0.0] and not
    [t2 - t1 = 9]: line 102 reads the start time [0] as "not started". *)
Lemma lifecycle_durations_counterexample :
  PyFloat.leb (seconds 0) (seconds 0) = true /\
  PyFloat.leb (seconds 0) (seconds 9) = true /\
  pending (snd (for_each task_handler
                  [named_task_ev "received" "A" "add" (seconds 0);
                   task_ev "started" "A" (seconds 0);
                   task_ev "succeeded" "A" (seconds 9)] (initial clock0))) =
    [TaskMetric (PStr "add") (PStr "received") (PFloat PyFloat.zero);
     TaskMetric (PStr "add") (PStr "started") (PFloat PyFloat.zero);
     TaskMetric (PStr "add") (PStr "succeeded") (PFloat PyFloat.zero)] /\
  ~ same_seconds PyFloat.zero (PyFloat.sub (seconds 9) (seconds 0)).
Proof.
  repeat split; try (vm_compute; reflexivity).
  intros [H|[_ H]]; vm_compute in H; discriminate H.
Qed.

(** ** Events for an identifier the store does not hold *)

(** C2.  A [started] or terminal event whose identifier has no entry in the
    store leaves the whole state as it is: no metric is reported, the store
    is not touched, and the handler ends normally. *)
Theorem unknown_identifier_dropped ev kind U ts w :
  task_event ev kind U ts ->
  In kind ("started" :: terminal_kinds) ->
  stored U w = None ->
  task_handler ev w = (Normal tt, w).
Proof.
  intros [Hty Hid Hts] Hk Hst. unfold stored in Hst.
  revert Hty. pattern kind. apply (started_or_terminal_cases _ _ Hk); intros Hty;
    start_handler; exec; reflexivity.
Qed.

(** The theorem at [started(B, 5)] with no earlier [received(B, ...)]. *)
Lemma unknown_identifier_dropped_witness :
  task_handler (task_ev "started" "B" (seconds 5)) (initial clock0)
  = (Normal tt, initial clock0).
Proof.
  apply (unknown_identifier_dropped _ "started" "B" (seconds 5)).
  - apply task_ev_event.
  - simpl; auto.
  - reflexivity.
Defined.

(** ** [sent] events *)

(** C3, as the code has it.  A [sent] event never creates a store entry.
    When its identifier has no entry it is dropped and nothing is reported,
    whatever name its payload carries.  When its identifier has a live
    record with a non-empty name, the name is taken from the record and a
    metric of duration [0.0] is reported, the store staying as it is. *)
Theorem sent_event_needs_record ev U ts w :
  task_event ev "sent" U ts ->
  (forall U', stored U' w = None -> stored U' (snd (task_handler ev w)) = None) /\
  match stored U w with
  | None => task_handler ev w = (Normal tt, w)
  | Some (r, t) =>
      fresh_at w 0 t -> fresh_at w 1 t -> Py.truthy (r_name r) = true ->
      exists w',
        task_handler ev w = (Normal tt, w') /\
        pending w' =
          (pending w ++ [TaskMetric (r_name r) (PStr "sent") (PFloat PyFloat.zero)])%list /\
        tuids w' = tuids w
  end.
Proof.
  intros [Hty Hid Hts]. unfold stored, fresh_at. split.
  - intros U' HU'. start_handler.
    destruct (OrderedDict.find (PStr U) (items (tuids w))) as [[r t]|] eqn:Hst.
    + destruct (Py.truthy (r_name r)) eqn:Hn;
        exec_all; auto using find_remove_none.
    + exec_all; auto.
  - destruct (OrderedDict.find (PStr U) (items (tuids w))) as [[r t]|] eqn:Hst.
    + simpl. intros F0 F1 Hn. eexists. split.
      * start_handler. exec. reflexivity.
      * cbn. split; [reflexivity|]. now destruct w as [[? ? ?] ? ? ? ? ? ?].
    + start_handler. exec. reflexivity.
Qed.

(** The theorem at a [sent] event for [A] once [A] has been received. *)
Lemma sent_event_needs_record_witness :
  exists w',
    task_handler (named_task_ev "sent" "A" "other" (seconds 1)) world_A
    = (Normal tt, w') /\
    pending w' =
      (pending world_A ++
       [TaskMetric (PStr "add") (PStr "sent") (PFloat PyFloat.zero)])%list /\
    tuids w' = tuids world_A.
Proof.
  exact (proj2 (sent_event_needs_record
                  (named_task_ev "sent" "A" "other" (seconds 1)) "A" (seconds 1)
                  world_A (named_task_ev_event _ _ _ _))
               eq_refl eq_refl eq_refl).
Defined.

(** C3 fails as stated: a [sent] event named ["add"] whose identifier has
    no record is dropped; no metric is reported. *)
Lemma sent_event_counterexample :
  stored "B" (initial clock0) = None /\
  Py.lookup "name" (named_task_ev "sent" "B" "add" (seconds 5)) = Some (PStr "add") /\
  task_handler (named_task_ev "sent" "B" "add" (seconds 5)) (initial clock0)
  = (Normal tt, initial clock0) /\
  pending (initial clock0) = [].
Proof. repeat split. Qed.

(** ** The duration reported *)

(** C4, as the code has it.  Whenever an event with a finite float
    timestamp makes the handler report a metric, on a store whose records
    hold such timestamps, the duration reported is a float (never [None]);
    it is [0.0] for [received] and [sent] events and for terminal events
    whose record has ['started'] unset; and it is non-negative whenever the
    event is stamped no earlier than the time it is measured from (see
    [duration_spec]).  Nothing clamps a difference of timestamps that go
    backwards. *)
Theorem emitted_duration ev kind U ts w task cname d :
  task_event ev kind U ts -> PyFloat.finite ts = true ->
  In kind task_kinds ->
  store_wf w ->
  pending (snd (task_handler ev w)) = (pending w ++ [TaskMetric task cname d])%list ->
  exists f, d = PFloat f /\ duration_spec kind ts (stored U w) f.
Proof.
  intros [Hty Hid Hts] Hfin Hk Hwf.
  assert (Hrec : forall r t, stored U w = Some (r, t) -> record_wf r)
    by (intros; eapply stored_wf; eauto).
  clear Hwf. unfold stored in *.
  destruct (task_kind_cases _ Hk) as [->|[->|[->|Hk']]]; clear Hk.
  - (* received *)
    start_handler.
    destruct (Py.lookup "name" ev) as [name|] eqn:Hname;
      [destruct (Py.truthy name) eqn:Hn|].
    + exec. intros H. apply app_one_inj in H. injection H as _ _ <-.
      exists PyFloat.zero. split; reflexivity.
    + exec. intros H. no_emission.
    + unfold py_getitem at 3. rewrite Hname. exec. intros H. no_emission.
  - (* sent *)
    start_handler.
    destruct (OrderedDict.find (PStr U) (items (tuids w))) as [[r t]|] eqn:Hst.
    + destruct (Py.truthy (r_name r)) eqn:Hn; exec_all; intros H; try no_emission.
      apply app_one_inj in H. injection H as _ _ <-.
      exists PyFloat.zero. split; reflexivity.
    + exec. intros H. no_emission.
  - (* started *)
    start_handler.
    destruct (OrderedDict.find (PStr U) (items (tuids w))) as [[r t]|] eqn:Hst.
    + destruct (Hrec _ _ eq_refl) as [(f0 & Hr & Hf0) _].
      destruct (Py.truthy (r_name r)) eqn:Hn; exec_all; intros H; try no_emission.
      apply app_one_inj in H. injection H as _ _ <-.
      destruct (PyFloat.leb f0 ts) eqn:Hle.
      * destruct (or_zero_nonneg _ (FloatFacts.sub_nonneg ts f0 Hfin Hf0 Hle))
          as (f & -> & Hf).
        exists f. split; [reflexivity|]. intros f0' Hr' _. exact Hf.
      * destruct (or_zero_same (PyFloat.sub ts f0)) as (f & -> & _).
        exists f. split; [reflexivity|]. intros f0' Hr'.
        try rewrite Hr in Hr'. injection Hr' as <-. congruence.
    + exec. intros H. no_emission.
  - (* terminal *)
    kind_tests Hk'.
    assert (K2 : ((kind =? "received") || (kind =? "sent"))%string = false).
    { simpl in Hk'. repeat destruct Hk' as [<-|Hk']; try tauto; reflexivity. }
    unfold duration_spec. rewrite K2, K0. start_handler.
    destruct (OrderedDict.find (PStr U) (items (tuids w))) as [[r t]|] eqn:Hst.
    + destruct (Hrec _ _ eq_refl) as [_ Hs].
      destruct (Py.truthy (r_name r)) eqn:Hn.
      * destruct Hs as [Hs|(s & Hs & Hfs)].
        -- exec_all; intros H; try no_emission.
           apply app_one_inj in H. injection H as _ _ <-.
           exists PyFloat.zero. split; reflexivity.
        -- rewrite Hs. simpl Py.truthy.
           destruct (PyFloat.is_zero s) eqn:Z; simpl negb.
           ++ exec_all; intros H; try no_emission.
              apply app_one_inj in H. injection H as _ _ <-.
              exists PyFloat.zero. split; reflexivity.
           ++ exec_all; intros H; try no_emission.
              apply app_one_inj in H. injection H as _ _ <-.
              destruct (PyFloat.leb s ts) eqn:Hle.
              ** destruct (or_zero_nonneg _ (FloatFacts.sub_nonneg ts s Hfin Hfs Hle))
                   as (f & -> & Hf).
                 exists f. split; [reflexivity|]. intros s' _ _. exact Hf.
              ** destruct (or_zero_same (PyFloat.sub ts s)) as (f & -> & _).
                 exists f. split; [reflexivity|]. intros s' Hs'.
                 injection Hs' as <-. congruence.
      * exec_all; intros H; no_emission.
    + exec. intros H. no_emission.
Qed.

(** The theorem at [started(A, 5)] once [received(A, "add", 0)] has been
    handled: the five seconds waited are reported. *)
Lemma emitted_duration_witness :
  exists f,
    PFloat (seconds 5) = PFloat f /\
    duration_spec "started" (seconds 5) (stored "A" world_A) f.
Proof.
  apply (emitted_duration (task_ev "started" "A" (seconds 5)) "started" "A"
           (seconds 5) world_A (PStr "add") (PStr "started") (PFloat (seconds 5))).
  - apply task_ev_event.
  - reflexivity.
  - simpl; auto.
  - apply (store_wf_preserved _ "received" "A" (seconds 0)).
    + apply named_task_ev_event.
    + reflexivity.
    + simpl; auto.
    + apply store_wf_initial.
  - vm_compute. reflexivity.
Defined.

(** C4 fails as stated: [received(A, 10)] followed by [started(A, 5)]
    reports the duration [5 - 10], which is negative. *)
Lemma emitted_duration_counterexample :
  pending (snd (for_each task_handler
                  [named_task_ev "received" "A" "add" (seconds 10);
                   task_ev "started" "A" (seconds 5)] (initial clock0))) =
    [TaskMetric (PStr "add") (PStr "received") (PFloat PyFloat.zero);
     TaskMetric (PStr "add") (PStr "started")
                (PFloat (PyFloat.sub (seconds 5) (seconds 10)))] /\
  PyFloat.leb PyFloat.zero (PyFloat.sub (seconds 5) (seconds 10)) = false /\
  PyFloat.ltb (PyFloat.sub (seconds 5) (seconds 10)) PyFloat.zero = true.
Proof. repeat split; vm_compute; reflexivity. Qed.

(** ** Terminal events *)

(** C5, as the code has it.  After a terminal event with a float timestamp
    whose identifier has an entry in the store, the store holds no entry
    for that identifier, provided that the record has a non-empty name (and
    a ['started'] field as the handler writes it: [0] or a float).  The
    entry goes whether it is deleted at line 104 or found expired on the
    way. *)
Theorem terminal_event_deletes_record ev kind U ts w r t :
  task_event ev kind U ts ->
  In kind terminal_kinds ->
  stored U w = Some (r, t) ->
  Py.truthy (r_name r) = true ->
  (r_started r = PInt 0 \/ exists s, r_started r = PFloat s) ->
  exists w', task_handler ev w = (Normal tt, w') /\ stored U w' = None.
Proof.
  intros [Hty Hid Hts] Hk Hst Hname Hstarted. unfold stored in *.
  kind_tests Hk.
  assert (G : fst (task_handler ev w) = Normal tt /\
              OrderedDict.find (PStr U) (items (tuids (snd (task_handler ev w)))) = None).
  { start_handler.
    destruct Hstarted as [H0|[s H0]];
       [ exec_all; auto
       | exec_all; auto; destruct (PyFloat.is_zero s); exec_all; auto ]. }
  destruct (task_handler ev w) as [o w']. simpl in G. destruct G as [-> G].
  now exists w'.
Qed.

(** The theorem at [revoked(A, 3)] once [received(A, "add", 0)] has been
    handled. *)
Lemma terminal_event_deletes_record_witness :
  exists w',
    task_handler (task_ev "revoked" "A" (seconds 3)) world_A = (Normal tt, w') /\
    stored "A" w' = None.
Proof.
  apply (terminal_event_deletes_record _ "revoked" "A" (seconds 3) world_A
           (mkTaskRecord (PStr "add") (PFloat (seconds 0)) (PInt 0)) (seconds 1000)).
  - apply task_ev_event.
  - simpl; auto 6.
  - reflexivity.
  - reflexivity.
  - left. reflexivity.
Defined.

(** C5 fails as stated: the identifier [A] has an entry, with an empty
    name; after [succeeded(A, 11)] the entry is still there (line 98
    returns before line 104 is reached). *)
Lemma terminal_event_counterexample :
  stored "A" world_A_unnamed =
    Some (mkTaskRecord (PStr "") (PFloat (seconds 10)) (PInt 0), seconds 1000) /\
  fst (task_handler (task_ev "succeeded" "A" (seconds 11)) world_A_unnamed)
    = Normal tt /\
  stored "A" (snd (task_handler (task_ev "succeeded" "A" (seconds 11))
                                world_A_unnamed)) =
    Some (mkTaskRecord (PStr "") (PFloat (seconds 10)) (PInt 0), seconds 1000).
Proof. repeat split. Qed.

(** ** [received] events without a name *)

(** C10.  A [received] event whose name is the empty string reports no
    metric and is logged as an anomaly, yet the record built from it is in
    the store afterwards, under the event's identifier. *)
Theorem received_without_name_is_stored ev U ts w :
  task_event ev "received" U ts ->
  Py.lookup "name" ev = Some (PStr "") ->
  exists w',
    task_handler ev w = (Normal tt, w') /\
    pending w' = pending w /\
    logged w' = (logged w ++ [LogNoName ev])%list /\
    stored U w' =
      Some (mkTaskRecord (PStr "") (PFloat ts) (PInt 0), clock w (ticks w)).
Proof.
  intros [Hty Hid Hts] Hname.
  eexists. split.
  - start_handler. exec. reflexivity.
  - unfold stored. cbn. repeat split.
    apply find_store_same, key_eqb_str_refl.
Qed.

(** The theorem at a [received] event for [A] with an empty name. *)
Lemma received_without_name_is_stored_witness :
  exists w',
    task_handler (named_task_ev "received" "A" "" (seconds 10)) (initial clock0)
    = (Normal tt, w') /\
    pending w' = pending (initial clock0) /\
    logged w' =
      (logged (initial clock0) ++
       [LogNoName (named_task_ev "received" "A" "" (seconds 10))])%list /\
    stored "A" w' =
      Some (mkTaskRecord (PStr "") (PFloat (seconds 10)) (PInt 0),
            clock (initial clock0) (ticks (initial clock0))).
Proof.
  apply received_without_name_is_stored.
  - apply named_task_ev_event.
  - reflexivity.
Defined.

(** ** Exceptions *)

Lemma roe_ret {A} (a : A) : raises_only_Exception (ret a).
Proof. intros w ex w' H. discriminate H. Qed.

Lemma roe_return {A} : raises_only_Exception (@py_return A).
Proof. intros w ex w' H. discriminate H. Qed.

Lemma roe_raise {A} ex : is_Exception ex = true -> raises_only_Exception (@raise A ex).
Proof. intros E w ex' w' H. injection H as <- _. exact E. Qed.

Lemma roe_bind {A B} (m : M A) (k : A -> M B) :
  raises_only_Exception m -> (forall a, raises_only_Exception (k a)) ->
  raises_only_Exception (bind m k).
Proof.
  intros Hm Hk w ex w' H. unfold bind in H.
  destruct (m w) as [[a| |ex0] w0] eqn:E.
  - eapply Hk; eauto.
  - discriminate H.
  - injection H as <- _. eapply Hm; eauto.
Qed.

Lemma roe_get {A} (f : World -> A) : raises_only_Exception (get f).
Proof. intros w ex w' H. discriminate H. Qed.

Lemma roe_modify f : raises_only_Exception (modify f).
Proof. intros w ex w' H. discriminate H. Qed.

Lemma roe_lift {A} ex (o : option A) :
  is_Exception ex = true -> raises_only_Exception (lift ex o).
Proof. intros E. destruct o; simpl; auto using roe_ret, roe_raise. Qed.

Lemma roe_when c body :
  raises_only_Exception body -> raises_only_Exception (when c body).
Proof. intros H. destruct c; simpl; auto using roe_ret. Qed.

Lemma roe_if {A} (c : bool) (m1 m2 : M A) :
  raises_only_Exception m1 -> raises_only_Exception m2 ->
  raises_only_Exception (if c then m1 else m2).
Proof. destruct c; auto. Qed.

Lemma roe_time : raises_only_Exception time_time.
Proof. intros w ex w' H. discriminate H. Qed.

Create HintDb exc.

#[local] Hint Resolve roe_ret roe_return roe_bind roe_get roe_modify roe_when
  roe_if roe_time : exc.
#[local] Hint Extern 1 (raises_only_Exception (raise _)) =>
  apply roe_raise; reflexivity : exc.
#[local] Hint Extern 1 (raises_only_Exception (lift _ _)) =>
  apply roe_lift; reflexivity : exc.
#[local] Hint Extern 1 (raises_only_Exception (log _)) => apply roe_modify : exc.
#[local] Hint Extern 1 (raises_only_Exception (emit _)) => apply roe_modify : exc.

Lemma roe_getitem ev k : raises_only_Exception (py_getitem ev k).
Proof. unfold py_getitem. auto with exc. Qed.

Lemma roe_slice n v : raises_only_Exception (py_slice_from n v).
Proof. destruct v; simpl; auto with exc. Qed.

Lemma roe_float_of_int z : raises_only_Exception (py_float_of_int z).
Proof. unfold py_float_of_int. auto with exc. Qed.

#[local] Hint Resolve roe_getitem roe_slice roe_float_of_int : exc.

Lemma roe_sub a b : raises_only_Exception (py_sub a b).
Proof. destruct a, b; simpl; auto 10 with exc. Qed.

Lemma roe_hash k : raises_only_Exception (py_hash k).
Proof. unfold py_hash. auto with exc. Qed.

#[local] Hint Resolve roe_sub roe_hash : exc.

Lemma roe_contains k : raises_only_Exception (tuids_contains k).
Proof.
  unfold tuids_contains. apply roe_bind; auto with exc. intros _.
  apply roe_bind; auto with exc. intros d.
  destruct (OrderedDict.find k (items d)) as [[r t]|]; auto 10 with exc.
Qed.

Lemma roe_tuids_getitem k : raises_only_Exception (tuids_getitem k).
Proof.
  unfold tuids_getitem. apply roe_bind; auto with exc. intros _.
  apply roe_bind; auto with exc. intros d.
  destruct (OrderedDict.find k (items d)) as [[r t]|]; auto 10 with exc.
Qed.

Lemma roe_update k v : raises_only_Exception (tuids_update k v).
Proof. unfold tuids_update. auto 10 with exc. Qed.

Lemma roe_delitem k : raises_only_Exception (tuids_delitem k).
Proof.
  unfold tuids_delitem. apply roe_bind; auto with exc. intros _.
  apply roe_bind; auto with exc. intros d.
  destruct (OrderedDict.find k (items d)); auto with exc.
Qed.

#[local] Hint Resolve roe_contains roe_tuids_getitem roe_update roe_delitem : exc.

(** Whatever the payload, the statements of lines 77-111 raise nothing but
    [KeyError], [TypeError] and [OverflowError]. *)
Lemma task_handler_body_raises ev : raises_only_Exception (task_handler_body ev).
Proof.
  unfold task_handler_body, tuids_len, record_set_started.
  repeat first [ solve [auto with exc]
               | apply roe_bind; [|intro] | apply roe_if | apply roe_when ].
Qed.

(** C6.  For every event, whatever its payload (fields missing, values of
    any type), and in every state, [task_handler] ends normally: an
    exception raised by the statements of its [try] block is of class
    [Exception], is caught at line 112 and is logged with the event; no
    exception reaches the caller. *)
Theorem task_handler_never_raises (ev : event) (w : World) :
  exists w',
    task_handler ev w = (Normal tt, w') /\
    match task_handler_body ev w with
    | (Raise ex, w1) =>
        is_Exception ex = true /\
        w' = set_logged (logged w1 ++ [LogException ex ev]) w1
    | (_, w1) => w' = w1
    end.
Proof.
  unfold task_handler, call, try_except_Exception.
  pose proof (task_handler_body_raises ev w) as H.
  destruct (task_handler_body ev w) as [[[]| |ex] w1].
  - eauto.
  - eauto.
  - rewrite (H ex w1 eq_refl). simpl. eexists. split; [reflexivity|]. auto.
Qed.

(** Nor does an event stop the handling of those that follow. *)
Lemma task_handler_stream_never_raises evs : forall w,
  fst (for_each task_handler evs w) = Normal tt.
Proof.
  induction evs as [|ev evs IH]; intros w; simpl; auto.
  rewrite bind_eq. unfold task_handler, call, try_except_Exception.
  pose proof (task_handler_body_raises ev w) as H.
  destruct (task_handler_body ev w) as [[[]| |ex] w1]; try apply IH.
  rewrite (H ex w1 eq_refl). simpl. apply IH.
Qed.

(** Payloads of the wrong shape, one after the other: no identifier, a type
    that is no string, an identifier that cannot be hashed, a timestamp
    that is a string.  Each ends in the log, none in an exception. *)
Example malformed_events_are_logged :
  let evs :=
    [ [("type", PStr "task-started")];
      [("type", PInt 3); ("uuid", PStr "A")];
      [("type", PStr "task-received"); ("uuid", PList []); ("name", PStr "add");
       ("timestamp", PFloat (seconds 1))];
      [("type", PStr "task-received"); ("uuid", PStr "A"); ("name", PStr "add");
       ("timestamp", PFloat (seconds 1))];
      [("type", PStr "task-started"); ("uuid", PStr "A");
       ("timestamp", PStr "noon")] ] in
  let r := for_each task_handler evs (initial clock0) in
  fst r = Normal tt /\
  map (fun e => match e with LogException ex _ => Some ex | _ => None end)
      (logged (snd r)) =
    [Some KeyError; Some TypeError; Some TypeError; None; Some TypeError].
Proof. vm_compute. split; reflexivity. Qed.

(** ** Heartbeats and the aggregator *)

Lemma existsb_key_eqb h l :
  existsb (Py.key_eqb (PStr h)) (map PStr l) = existsb (String.eqb h) l.
Proof. induction l; simpl; auto. now rewrite IHl. Qed.

(** A worker-presence event of either type adds its host name to the set. *)
Lemma dispatch_worker_event ev h l w :
  worker_event ev h -> heartbeats w = map PStr l ->
  event_dispatcher ev w = (Normal tt, set_heartbeats (map PStr (add_host h l)) w).
Proof.
  intros [Hty Hh] Hl.
  unfold event_dispatcher, call.
  assert (E : worker_heartbeat ev w =
              (Normal tt, set_heartbeats (map PStr (add_host h l)) w)).
  { unfold worker_heartbeat, call, heartbeats_add, add_host.
    rewrite bind_eq, (py_getitem_eq _ _ _ _ Hh). cbn.
    rewrite Hl, existsb_key_eqb.
    destruct (existsb (String.eqb h) l).
    - destruct w; simpl in *; now subst.
    - now rewrite map_app. }
  destruct Hty as [Hty|Hty];
    rewrite bind_eq, (py_getitem_eq _ _ _ _ Hty); cbn; unfold spawn; now rewrite E.
Qed.

Lemma dispatch_worker_events evs : forall hs l w,
  Forall2 worker_event evs hs -> heartbeats w = map PStr l ->
  for_each event_dispatcher evs w =
  (Normal tt, set_heartbeats (map PStr (add_hosts hs l)) w).
Proof.
  induction evs as [|ev evs IH]; intros hs l w HF Hl; inversion HF; subst; simpl.
  - destruct w; simpl in *; now subst.
  - rewrite bind_eq, (dispatch_worker_event _ _ _ _ H1 Hl).
    rewrite (IH l' (add_host y l) (set_heartbeats (map PStr (add_host y l)) w));
      [reflexivity | assumption | reflexivity].
Qed.

Lemma add_host_spec h l :
  NoDup l ->
  NoDup (add_host h l) /\ forall x, In x (add_host h l) <-> x = h \/ In x l.
Proof.
  intros ND. unfold add_host.
  destruct (existsb (String.eqb h) l) eqn:E.
  - split; auto. intros x. split; auto. intros [->|H]; auto.
    apply existsb_exists in E. destruct E as (y & Hy & Ey).
    apply String.eqb_eq in Ey. now subst.
  - split.
    + apply NoDup_app; auto.
      * constructor; [intros []|constructor].
      * intros x Hx [E'|[]]. subst x.
        assert (existsb (String.eqb h) l = true)
          by (apply existsb_exists; exists h; split; auto; apply String.eqb_refl).
        congruence.
    + intros x. rewrite in_app_iff. simpl. intuition.
Qed.

Lemma add_hosts_spec hs : forall l,
  NoDup l ->
  NoDup (add_hosts hs l) /\
  forall x, In x (add_hosts hs l) <-> In x hs \/ In x l.
Proof.
  unfold add_hosts.
  induction hs as [|h hs IH]; intros l ND; simpl.
  - split; auto. intuition.
  - destruct (add_host_spec h l ND) as [ND' In'].
    destruct (IH _ ND') as [ND'' In'']. split; auto.
    intros x. rewrite In'', In'. intuition.
Qed.

(** The set built from the host names [hs] has as many elements as [hs] has
    distinct ones. *)
Lemma add_hosts_length hs :
  List.length (add_hosts hs []) = List.length (nodup string_dec hs).
Proof.
  destruct (add_hosts_spec hs [] (NoDup_nil _)) as [ND HIn].
  apply Nat.le_antisymm; apply NoDup_incl_length; auto using NoDup_nodup.
  - intros x Hx. apply nodup_In. apply HIn in Hx. simpl in Hx. tauto.
  - intros x Hx. apply nodup_In in Hx. apply HIn. auto.
Qed.

Lemma add_host_idempotent h l : add_host h (add_host h l) = add_host h l.
Proof.
  unfold add_host. destruct (existsb (String.eqb h) l) eqn:E.
  - now rewrite E.
  - rewrite existsb_app, E. simpl. now rewrite String.eqb_refl.
Qed.

(** Recording the same heartbeat twice is recording it once. *)
Lemma heartbeat_idempotent ev h l w :
  worker_event ev h -> heartbeats w = map PStr l ->
  for_each event_dispatcher [ev; ev] w = event_dispatcher ev w.
Proof.
  intros Hev Hl.
  rewrite (dispatch_worker_events [ev; ev] [h; h] l w
             (Forall2_cons _ _ Hev (Forall2_cons _ _ Hev (Forall2_nil _))) Hl).
  rewrite (dispatch_worker_event ev h l w Hev Hl).
  unfold add_hosts. simpl. now rewrite add_host_idempotent.
Qed.

Lemma collect_queues counts : forall w,
  exists w',
    for_each (fun nc => log (LogQueue (fst nc) (snd nc)) ;;
                        emit (QueueMetric (fst nc) (snd nc))) counts w
    = (Normal tt, w') /\
    pending w' = (pending w ++ map queue_point counts)%list /\
    heartbeats w' = heartbeats w.
Proof.
  induction counts as [|nc counts IH]; intros w; simpl.
  - exists w. now rewrite app_nil_r.
  - rewrite bind_eq. cbn.
    match goal with
    | |- context [for_each _ counts ?w1] => destruct (IH w1) as (w' & E & P & H)
    end.
    exists w'. rewrite E, P, H. cbn. rewrite <- app_assoc. auto.
Qed.

(** Lines 140-148: one point per queue, then the number of workers in the
    heartbeat set, which is left empty. *)
Lemma Submitter_collect_eq counts w :
  exists w',
    Submitter_collect counts w = (Normal tt, w') /\
    pending w' =
      (pending w ++ map queue_point counts ++
       [WorkerMetric (List.length (heartbeats w))])%list /\
    heartbeats w' = [].
Proof.
  unfold Submitter_collect.
  destruct (collect_queues counts w) as (w1 & E & P & H).
  eexists. rewrite bind_eq, E. cbn. rewrite P, H, <- app_assoc.
  unfold modify. repeat split.
Qed.

Lemma worker_ev_heartbeat h : worker_event (worker_ev "worker-heartbeat" h) h.
Proof. split; [left|]; reflexivity. Qed.

Lemma worker_ev_online h : worker_event (worker_ev "worker-online" h) h.
Proof. split; [right|]; reflexivity. Qed.

(** C7.  Worker-presence events of either type, dispatched within one
    reporting cycle that starts with an empty heartbeat set, make the cycle
    report a worker count equal to the number of distinct host names seen:
    a host name seen again adds nothing. *)
Theorem heartbeats_counted_once evs hs counts w :
  Forall2 worker_event evs hs ->
  heartbeats w = [] ->
  exists w1 w2,
    for_each event_dispatcher evs w = (Normal tt, w1) /\
    Submitter_collect counts w1 = (Normal tt, w2) /\
    pending w2 =
      (pending w ++ map queue_point counts ++
       [WorkerMetric (List.length (nodup string_dec hs))])%list /\
    heartbeats w2 = [].
Proof.
  intros HF H0.
  pose proof (dispatch_worker_events evs hs [] w HF H0) as E1.
  eexists.
  destruct (Submitter_collect_eq counts
              (set_heartbeats (map PStr (add_hosts hs [])) w))
    as (w2 & E2 & P2 & H2).
  exists w2. split; [exact E1|]. split; [exact E2|]. split; [|exact H2].
  rewrite P2. cbn. now rewrite length_map, add_hosts_length.
Qed.

(** The theorem at the heartbeats of [w1], [w2] and [w1] again. *)
Lemma heartbeats_counted_once_witness :
  exists w1 w2,
    for_each event_dispatcher
      [worker_ev "worker-online" "w1"; worker_ev "worker-heartbeat" "w2";
       worker_ev "worker-heartbeat" "w1"] (initial clock0) = (Normal tt, w1) /\
    Submitter_collect [] w1 = (Normal tt, w2) /\
    pending w2 =
      (pending (initial clock0) ++ map queue_point [] ++
       [WorkerMetric (List.length (nodup string_dec ["w1"; "w2"; "w1"]))])%list /\
    heartbeats w2 = [].
Proof.
  apply heartbeats_counted_once.
  - constructor; [apply worker_ev_online|].
    constructor; [apply worker_ev_heartbeat|].
    constructor; [apply worker_ev_heartbeat|].
    constructor.
  - reflexivity.
Defined.

(** C8.  With the heartbeats of [w1], [w2] and [w1] dispatched since
    start-up and the queue counters [default: 3] and [priority: 0], one
    cycle of the aggregator reports [QueueMetric(default, 3)],
    [QueueMetric(priority, 0)] and [WorkerMetric(2)], in this order, leaves
    the heartbeat set empty, and commits the three points. *)
Theorem aggregation_cycle_scenario (clk : nat -> spec_float) :
  let w1 := snd (for_each event_dispatcher
                   [worker_ev "worker-heartbeat" "w1";
                    worker_ev "worker-online" "w2";
                    worker_ev "worker-heartbeat" "w1"] (initial clk)) in
  let w2 := snd (Submitter_collect [("default", 3); ("priority", 0)] w1) in
  let w3 := snd (Submitter_commit w2) in
  heartbeats w1 = [PStr "w1"; PStr "w2"] /\
  Submitter_cycle [("default", 3); ("priority", 0)] w1 = (Normal tt, w3) /\
  pending w2 = [QueueMetric "default" 3; QueueMetric "priority" 0; WorkerMetric 2] /\
  heartbeats w2 = [] /\
  written w3 = [QueueMetric "default" 3; QueueMetric "priority" 0; WorkerMetric 2] /\
  pending w3 = [] /\
  heartbeats w3 = [].
Proof.
  vm_compute. repeat split.
Qed.

(** ** Relations that every run respects *)

Section Keeps.

Variable R : World -> World -> Prop.
Hypothesis HR : Stable R.

Lemma keeps_ret {A} (a : A) : keeps R (ret a).
Proof. intros w o w' [= _ <-]. apply (st_refl R HR). Qed.

Lemma keeps_return {A} : keeps R (@py_return A).
Proof. intros w o w' [= _ <-]. apply (st_refl R HR). Qed.

Lemma keeps_raise {A} ex : keeps R (@raise A ex).
Proof. intros w o w' [= _ <-]. apply (st_refl R HR). Qed.

Lemma keeps_get {A} (f : World -> A) : keeps R (get f).
Proof. intros w o w' [= _ <-]. apply (st_refl R HR). Qed.

Lemma keeps_bind {A B} (m : M A) (k : A -> M B) :
  keeps R m -> (forall a, keeps R (k a)) -> keeps R (bind m k).
Proof.
  intros Hm Hk w o w' H. unfold bind in H.
  destruct (m w) as [[a| |ex] w0] eqn:E.
  - eapply (st_trans R HR); [eapply Hm; eauto | eapply Hk; eauto].
  - injection H as _ <-. eapply Hm; eauto.
  - injection H as _ <-. eapply Hm; eauto.
Qed.

Lemma keeps_lift {A} ex (o : option A) : keeps R (lift ex o).
Proof. destruct o; simpl; auto using keeps_ret, keeps_raise. Qed.

Lemma keeps_when c body : keeps R body -> keeps R (when c body).
Proof. intros H. destruct c; simpl; auto using keeps_ret. Qed.

Lemma keeps_if {A} (c : bool) (m1 m2 : M A) :
  keeps R m1 -> keeps R m2 -> keeps R (if c then m1 else m2).
Proof. destruct c; auto. Qed.

Lemma keeps_call body : keeps R body -> keeps R (call body).
Proof.
  intros H w o w' E. unfold call in E.
  destruct (body w) as [[a| |ex] w0] eqn:Eb; injection E as _ <-; eapply H; eauto.
Qed.

Lemma keeps_try_Exception {A} (body : M A) handler :
  keeps R body -> (forall ex, keeps R (handler ex)) ->
  keeps R (try_except_Exception body handler).
Proof.
  intros Hb Hh w o w' E. unfold try_except_Exception in E.
  destruct (body w) as [[a| |ex] w0] eqn:Eb.
  - injection E as _ <-. eapply Hb; eauto.
  - injection E as _ <-. eapply Hb; eauto.
  - destruct (is_Exception ex).
    + eapply (st_trans R HR); [eapply Hb; eauto | eapply Hh; eauto].
    + injection E as _ <-. eapply Hb; eauto.
Qed.

Lemma keeps_time : keeps R time_time.
Proof. intros w o w' [= _ <-]. apply (st_tick R HR). Qed.

Lemma keeps_log e : keeps R (log e).
Proof. intros w o w' [= _ <-]. apply (st_log R HR). Qed.

Lemma keeps_getitem ev k : keeps R (py_getitem ev k).
Proof. unfold py_getitem. apply keeps_lift. Qed.

Lemma keeps_slice n v : keeps R (py_slice_from n v).
Proof. destruct v; simpl; auto using keeps_ret, keeps_raise. Qed.

Lemma keeps_float_of_int z : keeps R (py_float_of_int z).
Proof.
  unfold py_float_of_int. apply keeps_if; auto using keeps_ret, keeps_raise.
Qed.

Lemma keeps_sub a b : keeps R (py_sub a b).
Proof.
  destruct a, b; unfold py_sub;
    repeat first [ apply keeps_ret | apply keeps_lift | apply keeps_float_of_int
                 | apply keeps_bind; [|intro] ].
Qed.

Lemma keeps_hash k : keeps R (py_hash k).
Proof. unfold py_hash. apply keeps_if; auto using keeps_ret, keeps_raise. Qed.

Lemma keeps_contains k : keeps R (tuids_contains k).
Proof.
  intros w o w' E. unfold tuids_contains, bind, py_hash, get, time_time, modify in E.
  destruct (Py.hashable k); simpl in E; [|injection E as _ <-; apply (st_refl R HR)].
  destruct (OrderedDict.find k (items (tuids w))) as [[r t]|];
    [|injection E as _ <-; apply (st_refl R HR)].
  simpl in E. destruct (fresh _ _ _); injection E as _ <-.
  - apply (st_tick R HR).
  - eapply (st_trans R HR); [apply (st_tick R HR)|].
    apply (st_remove R HR (set_ticks (S (ticks w)) w) k).
Qed.

Lemma keeps_tuids_getitem k : keeps R (tuids_getitem k).
Proof.
  intros w o w' E. unfold tuids_getitem, bind, py_hash, get, time_time, modify in E.
  destruct (Py.hashable k); simpl in E; [|injection E as _ <-; apply (st_refl R HR)].
  destruct (OrderedDict.find k (items (tuids w))) as [[r t]|];
    [|injection E as _ <-; apply (st_refl R HR)].
  simpl in E. destruct (fresh _ _ _); injection E as _ <-.
  - apply (st_tick R HR).
  - eapply (st_trans R HR); [apply (st_tick R HR)|].
    apply (st_remove R HR (set_ticks (S (ticks w)) w) k).
Qed.

Lemma keeps_delitem k : keeps R (tuids_delitem k).
Proof.
  intros w o w' E. unfold tuids_delitem, bind, py_hash, get, modify in E.
  destruct (Py.hashable k); simpl in E; [|injection E as _ <-; apply (st_refl R HR)].
  destruct (OrderedDict.find k (items (tuids w))) as [[r t]|];
    injection E as _ <-.
  - apply (st_remove R HR).
  - apply (st_refl R HR).
Qed.

Lemma keeps_record_set_started k ts : keeps R (record_set_started k ts).
Proof. intros w o w' [= _ <-]. apply (st_mutate R HR). Qed.

Lemma keeps_len : keeps R tuids_len.
Proof. apply keeps_get. Qed.

(** The branches of lines 84-94, which read the store and set the start
    time. *)
Lemma keeps_started_branch ev uuid :
  keeps R (present <- tuids_contains uuid ;;
           when (negb present) py_return ;;
           r <- tuids_getitem uuid ;;
           ts <- py_getitem ev "timestamp" ;;
           tuids_getitem uuid ;;
           record_set_started uuid ts ;;
           r1 <- tuids_getitem uuid ;;
           r2 <- tuids_getitem uuid ;;
           duration <- py_sub (r_started r1) (r_received r2) ;;
           ret (r_name r, duration)).
Proof.
  repeat first [ apply keeps_contains | apply keeps_tuids_getitem | apply keeps_getitem
               | apply keeps_record_set_started | apply keeps_sub | apply keeps_ret
               | apply keeps_when; apply keeps_return
               | apply keeps_bind; [|intro] ].
Qed.

Lemma keeps_else_branch uuid (duration : pyval) :
  keeps R (present <- tuids_contains uuid ;;
           when (negb present) py_return ;;
           r <- tuids_getitem uuid ;;
           ret (r_name r, duration)).
Proof.
  repeat first [ apply keeps_contains | apply keeps_tuids_getitem | apply keeps_ret
               | apply keeps_when; apply keeps_return
               | apply keeps_bind; [|intro] ].
Qed.

(** Lines 100-104. *)
Lemma keeps_terminal_block ev cname uuid (duration : pyval) :
  keeps R (if Py.in_strs cname ["succeeded"; "failed"; "retried"; "rejected"; "revoked"]
           then
             r <- tuids_getitem uuid ;;
             duration <-
               (if Py.truthy (r_started r) then
                  ts <- py_getitem ev "timestamp" ;;
                  r' <- tuids_getitem uuid ;;
                  py_sub ts (r_started r')
                else ret duration) ;;
             tuids_delitem uuid ;;
             ret duration
           else ret duration).
Proof.
  repeat first [ apply keeps_tuids_getitem | apply keeps_getitem | apply keeps_delitem
               | apply keeps_sub | apply keeps_ret | apply keeps_if
               | apply keeps_bind; [|intro] ].
Qed.

(** The statements of lines 84-111 for a kind that is not [received]. *)
Lemma keeps_not_received ev cname uuid :
  Py.eq_str cname "received" = false ->
  (forall m, keeps R (emit m)) ->
  keeps R
    (nd <-
      (if Py.eq_str cname "received" then
         name <- py_getitem ev "name" ;;
         ts <- py_getitem ev "timestamp" ;;
         tuids_update uuid (mkTaskRecord name ts (PInt 0)) ;;
         ret (name, PNone)
       else if Py.eq_str cname "started" then
         present <- tuids_contains uuid ;;
         when (negb present) py_return ;;
         r <- tuids_getitem uuid ;;
         let name := r_name r in
         ts <- py_getitem ev "timestamp" ;;
         tuids_getitem uuid ;;
         record_set_started uuid ts ;;
         r1 <- tuids_getitem uuid ;;
         r2 <- tuids_getitem uuid ;;
         duration <- py_sub (r_started r1) (r_received r2) ;;
         ret (name, duration)
       else
         present <- tuids_contains uuid ;;
         when (negb present) py_return ;;
         r <- tuids_getitem uuid ;;
         ret (r_name r, PNone)) ;;
     let name := fst nd in
     let duration := snd nd in
     when (negb (Py.truthy name))
          (log (LogNoName ev) ;; py_return) ;;
     duration <-
       (if Py.in_strs cname ["succeeded"; "failed"; "retried"; "rejected"; "revoked"] then
          r <- tuids_getitem uuid ;;
          duration <-
            (if Py.truthy (r_started r) then
               ts <- py_getitem ev "timestamp" ;;
               r' <- tuids_getitem uuid ;;
               py_sub ts (r_started r')
             else ret duration) ;;
          tuids_delitem uuid ;;
          ret duration
        else ret duration) ;;
     n <- tuids_len ;;
     log (LogTask n name cname duration) ;;
     emit (TaskMetric name cname (Py.or_ duration (PFloat PyFloat.zero)))).
Proof.
  intros Hc Hemit. rewrite Hc.
  apply keeps_bind.
  - apply keeps_if; [apply keeps_started_branch | apply keeps_else_branch].
  - intros nd. cbv zeta.
    repeat first [ apply keeps_terminal_block | apply keeps_len | apply keeps_log
                 | apply Hemit | apply keeps_return
                 | apply keeps_when | apply keeps_bind; [|intro] ].
Qed.

(** The whole of [task_handler], once the writing of a record and the
    reporting of a point respect the relation too. *)
Lemma keeps_task_handler ev :
  (forall k v, keeps R (tuids_update k v)) ->
  (forall m, keeps R (emit m)) ->
  keeps R (task_handler ev).
Proof.
  intros Hupd Hemit. unfold task_handler.
  apply keeps_call, keeps_try_Exception; [|intros ex; apply keeps_log].
  unfold task_handler_body.
  apply keeps_bind; [apply keeps_getitem|intros ty].
  apply keeps_bind; [apply keeps_slice|intros cname].
  apply keeps_bind; [apply keeps_getitem|intros uuid].
  cbv zeta.
  destruct (Py.eq_str cname "received") eqn:Hc.
  - apply keeps_bind.
    + repeat first [ apply keeps_getitem | apply Hupd | apply keeps_ret
                   | apply keeps_bind; [|intro] ].
    + intros nd.
      repeat first [ apply keeps_terminal_block | apply keeps_len | apply keeps_log
                   | apply Hemit | apply keeps_return
                   | apply keeps_when | apply keeps_bind; [|intro] ].
  - pose proof (keeps_not_received ev cname uuid Hc Hemit) as H.
    rewrite Hc in H. exact H.
Qed.

End Keeps.

(** ** What [task_handler] leaves alone *)

Lemma handler_frame_stable : Stable handler_frame.
Proof.
  constructor; unfold handler_frame.
  - intros w. repeat split; auto.
  - intros w1 w2 w3 (A1 & A2 & A3 & A4 & A5 & A6) (B1 & B2 & B3 & B4 & B5 & B6).
    repeat split; try congruence. lia.
  - intros w. cbn. repeat split; auto.
  - intros w e. cbn. repeat split; auto.
  - intros w k. cbn. repeat split; auto.
  - intros w k f. cbn. repeat split; auto.
Qed.

Lemma handler_frame_update k v : keeps handler_frame (tuids_update k v).
Proof.
  intros w o w' E. unfold tuids_update, bind, py_hash, get, when, time_time, modify in E.
  destruct (Py.hashable k); simpl in E;
    [|injection E as _ <-; apply (st_refl _ handler_frame_stable)].
  destruct (_ =? _); simpl in E; injection E as _ <-;
    unfold handler_frame; cbn; repeat split; auto.
Qed.

Lemma handler_frame_emit m : keeps handler_frame (emit m).
Proof. intros w o w' [= _ <-]. unfold handler_frame. cbn. repeat split; auto. Qed.

(** X5.  Whatever the payload of the event and however the handler ends,
    [task_handler] changes neither the heartbeat set, nor the points
    already committed, nor the clock, nor the bounds of the store. *)
Theorem task_handler_frame (ev : event) (w : World) :
  handler_frame w (snd (task_handler ev w)).
Proof.
  apply (keeps_task_handler _ handler_frame_stable ev
           handler_frame_update handler_frame_emit w (fst (task_handler ev w))).
  now destruct (task_handler ev w).
Qed.

(** ** The size of the store *)

Lemma length_remove k l :
  (List.length (OrderedDict.remove k l) <= List.length l)%nat.
Proof.
  induction l as [|[k' v] l IH]; simpl; auto.
  destruct (Py.key_eqb k' k); simpl; lia.
Qed.

Lemma length_mutate k f l :
  List.length (OrderedDict.mutate k f l) = List.length l.
Proof.
  induction l as [|[k' [r t]] l IH]; simpl; auto.
  destruct (Py.key_eqb k' k); simpl; auto.
Qed.

Lemma length_store k v l :
  (List.length (OrderedDict.store k v l) <= S (List.length l))%nat.
Proof.
  induction l as [|[k' v'] l IH]; simpl; auto.
  destruct (Py.key_eqb k' k); simpl; lia.
Qed.

Lemma find_mutate_none k k' f l :
  OrderedDict.find k l = None ->
  OrderedDict.find k (OrderedDict.mutate k' f l) = None.
Proof.
  induction l as [|[k0 [r t]] l IH]; simpl; auto.
  destruct (Py.key_eqb k0 k) eqn:E; [discriminate|].
  intros H. destruct (Py.key_eqb k0 k'); simpl; rewrite E; auto.
Qed.

Lemma capacity_kept_stable : Stable capacity_kept.
Proof.
  constructor; unfold capacity_kept, within_capacity.
  - intros w. split; auto.
  - intros w1 w2 w3 [A1 A2] [B1 B2]. split; [congruence|].
    intros H0 H. apply B2; [rewrite A1; exact H0|]. apply A2; auto.
  - intros w. cbn. split; auto.
  - intros w e. cbn. split; auto.
  - intros w k. cbn. split; auto. intros _ H.
    eapply Z.le_trans; [|exact H]. apply Nat2Z.inj_le, length_remove.
  - intros w k f. cbn. split; auto. intros _ H.
    now rewrite length_mutate.
Qed.

(** Writing a record keeps the store within its bound: at capacity the
    oldest entry makes room first. *)
Lemma capacity_kept_update k v : keeps capacity_kept (tuids_update k v).
Proof.
  intros w o w' E. unfold tuids_update, bind, py_hash, get, when, time_time, modify in E.
  destruct (Py.hashable k); simpl in E;
    [|injection E as _ <-; apply (st_refl _ capacity_kept_stable)].
  destruct (Z.of_nat (List.length (items (tuids w))) =? max_len (tuids w)) eqn:C;
    simpl in E; injection E as _ <-;
    unfold capacity_kept, within_capacity; cbn; (split; [reflexivity|]); intros H0 H.
  - apply Z.eqb_eq in C.
    eapply Z.le_trans; [apply Nat2Z.inj_le, length_store|].
    unfold OrderedDict.entry in *.
    destruct (items (tuids w)) as [|e l]; cbn [List.length tl] in *; lia.
  - apply Z.eqb_neq in C.
    eapply Z.le_trans; [apply Nat2Z.inj_le, length_store|].
    unfold OrderedDict.entry in *. lia.
Qed.

Lemma capacity_kept_emit m : keeps capacity_kept (emit m).
Proof. intros w o w' [= _ <-]. unfold capacity_kept. cbn. auto. Qed.

Lemma handlers_get_cases k t f :
  handlers_get k t = Some f -> In f (map snd t).
Proof.
  induction t as [|[s g] t IH]; simpl; [discriminate|].
  destruct (Py.eq_str k s).
  - intros [= <-]. auto.
  - auto.
Qed.

Lemma handlers_get_handlers k f :
  handlers_get k handlers = Some f -> f = task_handler \/ f = worker_heartbeat.
Proof.
  intros H. apply handlers_get_cases in H. simpl in H.
  repeat destruct H as [<-|H]; auto. destruct H.
Qed.

Lemma capacity_kept_dispatcher ev : keeps capacity_kept (event_dispatcher ev).
Proof.
  pose proof capacity_kept_stable as HS.
  intros w o w' E. unfold event_dispatcher, call, bind in E.
  destruct (py_getitem ev "type" w) as [[ty| |ex] w0] eqn:E0;
    pose proof (keeps_getitem _ HS ev "type" w _ _ E0) as R0;
    try (injection E as _ <-; exact R0).
  destruct (py_hash ty w0) as [[[]| |ex] w1] eqn:E1;
    pose proof (keeps_hash _ HS ty w0 _ _ E1) as R1;
    try (injection E as _ <-; eapply (st_trans _ HS); eauto).
  assert (R2 : forall o2 w2,
             match handlers_get ty handlers with
             | Some func => spawn (func ev)
             | None => log (LogNoHandler ty)
             end w1 = (o2, w2) -> capacity_kept w1 w2).
  { intros o2 w2 E2.
    destruct (handlers_get ty handlers) as [f|] eqn:Eh.
    - unfold spawn in E2.
      assert (Kf : keeps capacity_kept (f ev)).
      { destruct (handlers_get_handlers _ _ Eh) as [->| ->].
        - apply (keeps_task_handler _ HS); auto using capacity_kept_update, capacity_kept_emit.
        - unfold worker_heartbeat, heartbeats_add.
          apply keeps_call; auto.
          apply keeps_bind; auto using keeps_getitem. intros h.
          apply keeps_bind; auto using keeps_hash. intros _.
          intros x ox x' [= _ <-]. unfold capacity_kept, within_capacity.
          destruct (existsb _ _); cbn; auto. }
      destruct (f ev w1) as [[a| |ex] w3] eqn:E3; injection E2 as _ <-;
        eapply Kf; eauto.
    - eapply (keeps_log _ HS); eauto. }
  destruct (match handlers_get ty handlers with
            | Some func => spawn (func ev)
            | None => log (LogNoHandler ty)
            end w1) as [[a| |ex] w2] eqn:E2;
    injection E as _ <-;
    (eapply (st_trans _ HS); [exact R0|]); (eapply (st_trans _ HS); [exact R1|]);
    eapply R2; eauto.
Qed.

(** X8.  Whatever events are dispatched after start-up, of any type and
    payload, [tuids] never holds more than the 10240 entries of line 47. *)
Theorem store_within_capacity (evs : list event) (clk : nat -> spec_float) :
  Z.of_nat (List.length
              (items (tuids (snd (for_each event_dispatcher evs (initial clk))))))
  <= 10240.
Proof.
  assert (K : forall evs, keeps capacity_kept (for_each event_dispatcher evs)).
  { induction evs0 as [|ev evs0 IH]; simpl.
    - apply (keeps_ret _ capacity_kept_stable).
    - apply (keeps_bind _ capacity_kept_stable); auto using capacity_kept_dispatcher. }
  destruct (for_each event_dispatcher evs (initial clk)) as [o w'] eqn:E.
  destruct (K evs _ _ _ E) as [Hm Hc]. simpl.
  unfold within_capacity in Hc. rewrite Hm in Hc. simpl in Hc.
  apply Hc; lia.
Qed.

(** ** Which events add entries *)

Lemma no_new_entry_stable : Stable no_new_entry.
Proof.
  constructor; unfold no_new_entry.
  - intros w. split; auto.
  - intros w1 w2 w3 [A1 A2] [B1 B2]. split; auto. lia.
  - intros w. cbn. split; auto.
  - intros w e. cbn. split; auto.
  - intros w k. cbn. split; auto using find_remove_none, length_remove.
  - intros w k f. cbn. split; auto using find_mutate_none.
    now rewrite length_mutate.
Qed.

Lemma no_new_entry_emit m : keeps no_new_entry (emit m).
Proof. intros w o w' [= _ <-]. unfold no_new_entry. cbn. auto. Qed.

(** X7.  An event of any kind but [received] gives no identifier an entry
    it did not have, and does not make the store grow: records come from
    line 83 alone. *)
Theorem only_received_adds_entries ev kind U ts w :
  task_event ev kind U ts ->
  kind <> "received" ->
  (forall U', stored U' w = None -> stored U' (snd (task_handler ev w)) = None) /\
  (List.length (items (tuids (snd (task_handler ev w)))) <=
   List.length (items (tuids w)))%nat.
Proof.
  intros [Hty Hid Hts] Hk.
  assert (Hc : Py.eq_str (PStr kind) "received" = false)
    by (simpl; now apply String.eqb_neq).
  assert (K : keeps no_new_entry (task_handler ev)).
  { unfold task_handler.
    apply keeps_call, (keeps_try_Exception _ no_new_entry_stable);
      [|intros ex; apply (keeps_log _ no_new_entry_stable)].
    intros w0 o w' E. unfold task_handler_body in E.
    rewrite bind_eq, (py_getitem_eq _ _ _ _ Hty) in E. cbn in E.
    rewrite bind_eq, (py_getitem_eq _ _ _ _ Hid) in E.
    exact (keeps_not_received _ no_new_entry_stable ev (PStr kind) (PStr U) Hc
             no_new_entry_emit w0 o w' E). }
  destruct (task_handler ev w) as [o w'] eqn:E.
  destruct (K _ _ _ E) as [H1 H2]. simpl. split; auto.
  intros U'. apply H1.
Qed.

(** The theorem at [started(A, 5)] once [A] has been received. *)
Lemma only_received_adds_entries_witness :
  (forall U', stored U' world_A = None ->
              stored U' (snd (task_handler (task_ev "started" "A" (seconds 5))
                                           world_A)) = None) /\
  (List.length (items (tuids (snd (task_handler (task_ev "started" "A" (seconds 5))
                                                world_A)))) <=
   List.length (items (tuids world_A)))%nat.
Proof.
  apply (only_received_adds_entries _ "started" "A" (seconds 5)).
  - apply task_ev_event.
  - discriminate.
Defined.

(** ** What is reported *)

Lemma same_pending_stable : Stable same_pending.
Proof.
  constructor; unfold same_pending; try (intros; reflexivity).
  intros w1 w2 w3 A B. congruence.
Qed.

Lemma same_pending_update k v : keeps same_pending (tuids_update k v).
Proof.
  intros w o w' E. unfold tuids_update, bind, py_hash, get, when, time_time, modify in E.
  destruct (Py.hashable k); simpl in E; [|injection E as _ <-; reflexivity].
  destruct (_ =? _); simpl in E; injection E as _ <-; reflexivity.
Qed.

Lemma rao_keeps {A} (m : M A) : keeps same_pending m -> reports_at_most_one m.
Proof. intros H w o w' E. left. exact (H _ _ _ E). Qed.

Lemma rao_bind {A B} (m : M A) (k : A -> M B) :
  keeps same_pending m -> (forall a, reports_at_most_one (k a)) ->
  reports_at_most_one (bind m k).
Proof.
  intros Hm Hk w o w' E. unfold bind in E.
  destruct (m w) as [[a| |ex] w0] eqn:Em; pose proof (Hm _ _ _ Em) as P;
    unfold same_pending in P.
  - destruct (Hk a _ _ _ E) as [H|(x & Hx & H)]; [left|right; exists x; split; auto];
      congruence.
  - injection E as _ <-. now left.
  - injection E as _ <-. now left.
Qed.

(** The guard of lines 96-98: what follows runs with a name that is not
    empty. *)
Lemma rao_guard {B} (c : bool) (m : M unit) (k : unit -> M B) :
  keeps same_pending m -> (c = false -> reports_at_most_one (k tt)) ->
  reports_at_most_one (bind (when c (m ;; py_return)) k).
Proof.
  intros Hm Hk w o w' E. destruct c; simpl in E.
  - unfold bind, py_return in E.
    destruct (m w) as [[a| |ex] w0] eqn:Em; pose proof (Hm _ _ _ Em) as P;
      injection E as _ <-; now left.
  - unfold bind, ret in E. exact (Hk eq_refl _ _ _ E).
Qed.

Lemma rao_emit x : well_reported x -> reports_at_most_one (emit x).
Proof. intros Hx w o w' [= _ <-]. right. exists x. split; auto. Qed.

Lemma or_not_None d : Py.or_ d (PFloat PyFloat.zero) <> PNone.
Proof.
  unfold Py.or_. destruct (Py.truthy d) eqn:E; [|discriminate].
  intros ->. discriminate E.
Qed.

Lemma rao_tail ev cname uuid name duration0 :
  reports_at_most_one
    (when (negb (Py.truthy name))
          (log (LogNoName ev) ;; py_return) ;;
     duration <-
       (if Py.in_strs cname ["succeeded"; "failed"; "retried"; "rejected"; "revoked"] then
          r <- tuids_getitem uuid ;;
          duration <-
            (if Py.truthy (r_started r) then
               ts <- py_getitem ev "timestamp" ;;
               r' <- tuids_getitem uuid ;;
               py_sub ts (r_started r')
             else ret duration0) ;;
          tuids_delitem uuid ;;
          ret duration
        else ret duration0) ;;
     n <- tuids_len ;;
     log (LogTask n name cname duration) ;;
     emit (TaskMetric name cname (Py.or_ duration (PFloat PyFloat.zero)))).
Proof.
  pose proof same_pending_stable as HS.
  apply rao_guard; [apply (keeps_log _ HS)|]. intros Hn.
  apply negb_false_iff in Hn.
  apply rao_bind; [apply (keeps_terminal_block _ HS)|]. intros duration.
  apply rao_bind; [apply (keeps_len _ HS)|]. intros n.
  apply rao_bind; [apply (keeps_log _ HS)|]. intros _.
  apply rao_emit. split; [exact Hn | apply or_not_None].
Qed.

Lemma rao_body ev : reports_at_most_one (task_handler_body ev).
Proof.
  pose proof same_pending_stable as HS.
  unfold task_handler_body.
  apply rao_bind; [apply (keeps_getitem _ HS)|intros ty].
  apply rao_bind; [apply (keeps_slice _ HS)|intros cname].
  apply rao_bind; [apply (keeps_getitem _ HS)|intros uuid].
  cbv zeta.
  apply rao_bind; [|intros nd; apply rao_tail].
  repeat first [ apply (keeps_started_branch _ HS) | apply (keeps_else_branch _ HS)
               | apply (keeps_getitem _ HS) | apply same_pending_update
               | apply (keeps_ret _ HS) | apply keeps_if
               | apply (keeps_bind _ HS); [|intro] ].
Qed.

(** X6.  Whatever the payload, one call of [task_handler] reports nothing
    or exactly one point, and a point reported has a task name that is not
    empty and a duration that is not [None]. *)
Theorem task_handler_reports_at_most_one (ev : event) (w : World) :
  pending (snd (task_handler ev w)) = pending w \/
  exists x, well_reported x /\
            pending (snd (task_handler ev w)) = (pending w ++ [x])%list.
Proof.
  unfold task_handler, call, try_except_Exception.
  pose proof (rao_body ev w) as H.
  destruct (task_handler_body ev w) as [[[]| |ex] w1]; try exact (H _ _ eq_refl).
  destruct (is_Exception ex); [|exact (H _ _ eq_refl)].
  destruct (H _ _ eq_refl) as [P|(x & Hx & P)]; cbn; [left|right; exists x]; auto.
Qed.

(** ** The dispatcher *)

Lemma task_handler_normal ev w : fst (task_handler ev w) = Normal tt.
Proof.
  unfold task_handler, call, try_except_Exception.
  pose proof (task_handler_body_raises ev w) as H.
  destruct (task_handler_body ev w) as [[[]| |ex] w1]; try reflexivity.
  rewrite (H ex w1 eq_refl). reflexivity.
Qed.

Lemma spawn_task_handler ev w : spawn (task_handler ev) w = task_handler ev w.
Proof.
  unfold spawn. pose proof (task_handler_normal ev w) as H.
  destruct (task_handler ev w) as [[[]| |ex] w']; simpl in H;
    try discriminate; reflexivity.
Qed.


Lemma handlers_get_none ty (t : list (string * (event -> M unit))) :
  (forall s, ty = PStr s -> ~ In s (map fst t)) -> handlers_get ty t = None.
Proof.
  induction t as [|[s f] t IH]; simpl; auto. intros H.
  destruct (Py.eq_str ty s) eqn:E.
  - destruct ty; try discriminate. simpl in E. apply String.eqb_eq in E.
    exfalso. apply (H s0 eq_refl). now left.
  - apply IH. intros s' -> Hin. apply (H s' eq_refl). now right.
Qed.



(** X3.  An event whose type can be hashed and is none of the ten names of
    the table leaves one entry in the log (line 67) and changes nothing
    else; no handler runs. *)
Theorem dispatcher_logs_unknown_type ev ty w :
  Py.lookup "type" ev = Some ty ->
  Py.hashable ty = true ->
  (forall s, ty = PStr s -> ~ In s (map fst handlers)) ->
  event_dispatcher ev w =
  (Normal tt, set_logged (logged w ++ [LogNoHandler ty]) w).
Proof.
  intros Hty Hh Hn. unfold event_dispatcher, call.
  rewrite bind_eq, (py_getitem_eq _ _ _ _ Hty).
  rewrite bind_eq. unfold py_hash. rewrite Hh. cbn [ret].
  rewrite (handlers_get_none _ _ Hn). reflexivity.
Qed.

(** The theorem at a [worker-offline] event. *)
Lemma dispatcher_logs_unknown_type_witness :
  event_dispatcher (worker_ev "worker-offline" "w1") (initial clock0) =
  (Normal tt,
   set_logged (logged (initial clock0) ++ [LogNoHandler (PStr "worker-offline")])
              (initial clock0)).
Proof.
  apply dispatcher_logs_unknown_type.
  - reflexivity.
  - reflexivity.
  - intros s [= <-]. simpl. intros H.
    repeat destruct H as [H|H]; try discriminate H. exact H.
Defined.

(** X1.  The dispatcher raises exactly when the event has no [type]
    ([KeyError]) or a type that cannot be hashed ([TypeError]), and then
    nothing has changed; for every other event, whatever the rest of its
    payload, it ends normally. *)
Theorem event_dispatcher_outcome (ev : event) (w : World) :
  match Py.lookup "type" ev with
  | None => event_dispatcher ev w = (Raise KeyError, w)
  | Some ty =>
      if Py.hashable ty then fst (event_dispatcher ev w) = Normal tt
      else event_dispatcher ev w = (Raise TypeError, w)
  end.
Proof.
  unfold event_dispatcher, call. rewrite bind_eq. unfold py_getitem.
  destruct (Py.lookup "type" ev) as [ty|]; [|reflexivity].
  cbn [lift ret]. rewrite bind_eq. unfold py_hash.
  destruct (Py.hashable ty); [|reflexivity].
  cbn [ret].
  destruct (handlers_get ty handlers) as [f|] eqn:Eh; [|reflexivity].
  destruct (handlers_get_handlers _ _ Eh) as [->| ->].
  - rewrite spawn_task_handler.
    pose proof (task_handler_normal ev w) as H.
    destruct (task_handler ev w) as [[[]| |ex] w']; simpl in H;
      try discriminate; reflexivity.
  - unfold spawn, worker_heartbeat, call.
    destruct ((h <- py_getitem ev "hostname" ;; heartbeats_add h) w)
      as [[[]| |ex] w']; reflexivity.
Qed.

(** X4.  A worker-presence event with no host name, or with one that cannot
    be hashed, makes [worker_heartbeat] raise; the exception ends the
    greenlet, the dispatcher ends normally and the heartbeat set, like
    everything else, is as it was. *)
Theorem malformed_heartbeat_is_dropped ev w :
  (Py.lookup "type" ev = Some (PStr "worker-heartbeat") \/
   Py.lookup "type" ev = Some (PStr "worker-online")) ->
  (Py.lookup "hostname" ev = None \/
   exists h, Py.lookup "hostname" ev = Some h /\ Py.hashable h = false) ->
  (exists ex, worker_heartbeat ev w = (Raise ex, w) /\ is_Exception ex = true) /\
  event_dispatcher ev w = (Normal tt, w).
Proof.
  intros Hty Hh.
  assert (E : exists ex, worker_heartbeat ev w = (Raise ex, w) /\
                         is_Exception ex = true).
  { unfold worker_heartbeat, call, heartbeats_add. rewrite bind_eq.
    destruct Hh as [Hh|(h & Hh & Hu)].
    - unfold py_getitem. rewrite Hh. exists KeyError. split; reflexivity.
    - rewrite (py_getitem_eq _ _ _ _ Hh), bind_eq. unfold py_hash. rewrite Hu.
      exists TypeError. split; reflexivity. }
  split; [exact E|]. destruct E as (ex & E & _).
  unfold event_dispatcher, call.
  destruct Hty as [Hty|Hty];
    rewrite bind_eq, (py_getitem_eq _ _ _ _ Hty); rewrite bind_eq;
    cbn [py_hash Py.hashable ret]; cbn [handlers_get handlers Py.eq_str String.eqb Ascii.eqb Bool.eqb];
    unfold spawn; rewrite E; reflexivity.
Qed.

(** The theorem at a heartbeat without host name. *)
Lemma malformed_heartbeat_is_dropped_witness :
  (exists ex, worker_heartbeat [("type", PStr "worker-heartbeat")] (initial clock0)
              = (Raise ex, initial clock0) /\ is_Exception ex = true) /\
  event_dispatcher [("type", PStr "worker-heartbeat")] (initial clock0)
  = (Normal tt, initial clock0).
Proof.
  apply malformed_heartbeat_is_dropped.
  - left. reflexivity.
  - left. reflexivity.
Defined.

(** ** One event, in any state *)

(** X9.  A [received] event with a name that is not empty writes the record
    of line 83 under its identifier, stamped with the reading of the clock,
    and reports one point of duration [0.0] under that name; heartbeats,
    committed points and the bounds of the store stay. *)
Theorem received_event_creates_record ev U ts name w :
  task_event ev "received" U ts ->
  Py.lookup "name" ev = Some name -> Py.truthy name = true ->
  exists w',
    task_handler ev w = (Normal tt, w') /\
    pending w' =
      (pending w ++ [TaskMetric name (PStr "received") (PFloat PyFloat.zero)])%list /\
    stored U w' = Some (mkTaskRecord name (PFloat ts) (PInt 0), clock w (ticks w)) /\
    same_frame w w'.
Proof.
  intros Hev Hname Hn.
  destruct (received_step ev U ts name w Hev Hname Hn) as (w' & E & P & S & _ & F).
  exists w'. auto.
Qed.

(** The theorem at [received(A, "add", 0)] on the empty store. *)
Lemma received_event_creates_record_witness :
  exists w',
    task_handler (named_task_ev "received" "A" "add" (seconds 0)) (initial clock0)
    = (Normal tt, w') /\
    pending w' =
      (pending (initial clock0) ++
       [TaskMetric (PStr "add") (PStr "received") (PFloat PyFloat.zero)])%list /\
    stored "A" w' =
      Some (mkTaskRecord (PStr "add") (PFloat (seconds 0)) (PInt 0),
            clock (initial clock0) (ticks (initial clock0))) /\
    same_frame (initial clock0) w'.
Proof.
  apply received_event_creates_record.
  - apply named_task_ev_event.
  - reflexivity.
  - reflexivity.
Defined.

(** X10.  A [started] event for a live record writes its timestamp into the
    record held by the store, whose name, time of reception and stamp stay
    (the record gets no new lease), and reports the difference between the
    timestamp and the time of reception under the name of the record,
    whatever name the event carries. *)
Theorem started_event_records_start ev U ts w r t f0 :
  task_event ev "started" U ts ->
  stored U w = Some (r, t) ->
  (forall n, (n < 5)%nat -> fresh_at w n t) ->
  Py.truthy (r_name r) = true ->
  r_received r = PFloat f0 ->
  exists w',
    task_handler ev w = (Normal tt, w') /\
    pending w' =
      (pending w ++
       [TaskMetric (r_name r) (PStr "started")
                   (Py.or_ (PFloat (PyFloat.sub ts f0)) (PFloat PyFloat.zero))])%list /\
    stored U w' = Some (mkTaskRecord (r_name r) (PFloat f0) (PFloat ts), t) /\
    (List.length (items (tuids w')) = List.length (items (tuids w))).
Proof.
  intros Hev Hst Hf Hn Hr.
  destruct (started_step ev U ts w r t f0 Hev Hst Hf Hn Hr) as (w' & E & P & S & _ & _).
  exists w'. repeat split; auto.
  destruct Hev as [Hty Hid Hts]. unfold stored, fresh_at in *.
  pose proof (Hf 0%nat ltac:(lia)) as F0. pose proof (Hf 1%nat ltac:(lia)) as F1.
  pose proof (Hf 2%nat ltac:(lia)) as F2. pose proof (Hf 3%nat ltac:(lia)) as F3.
  pose proof (Hf 4%nat ltac:(lia)) as F4. cbn in F0, F1, F2, F3, F4. clear Hf.
  revert E. start_handler. exec. intros [= <-]. cbn. apply length_mutate.
Qed.

(** The theorem at [started(A, 5)] once [received(A, "add", 0)] has been
    handled. *)
Lemma started_event_records_start_witness :
  exists w',
    task_handler (task_ev "started" "A" (seconds 5)) world_A = (Normal tt, w') /\
    pending w' =
      (pending world_A ++
       [TaskMetric (PStr "add") (PStr "started")
                   (Py.or_ (PFloat (PyFloat.sub (seconds 5) (seconds 0)))
                           (PFloat PyFloat.zero))])%list /\
    stored "A" w' =
      Some (mkTaskRecord (PStr "add") (PFloat (seconds 0)) (PFloat (seconds 5)),
            seconds 1000) /\
    (List.length (items (tuids w')) = List.length (items (tuids world_A))).
Proof.
  apply (started_event_records_start _ "A" (seconds 5) world_A
           (mkTaskRecord (PStr "add") (PFloat (seconds 0)) (PInt 0))).
  - apply task_ev_event.
  - reflexivity.
  - intros n _. reflexivity.
  - reflexivity.
  - reflexivity.
Defined.

(** X11.  A [received] event without the field [name] raises [KeyError] at
    line 82, before the store is written: the exception is logged with the
    event and nothing else changes. *)
Theorem received_without_name_field ev U ts w :
  task_event ev "received" U ts ->
  Py.lookup "name" ev = None ->
  task_handler ev w =
  (Normal tt, set_logged (logged w ++ [LogException KeyError ev]) w).
Proof.
  intros [Hty Hid Hts] Hname.
  start_handler. exec. unfold py_getitem at 1. rewrite Hname. reflexivity.
Qed.

(** The theorem at a [received] event for [A] that names no task. *)
Lemma received_without_name_field_witness :
  task_handler (task_ev "received" "A" (seconds 0)) (initial clock0) =
  (Normal tt,
   set_logged (logged (initial clock0) ++
               [LogException KeyError (task_ev "received" "A" (seconds 0))])
              (initial clock0)).
Proof.
  apply (received_without_name_field _ "A" (seconds 0)).
  - apply task_ev_event.
  - reflexivity.
Defined.

(** X12.  A [started] event whose timestamp is a string, for a live record:
    the subtraction of line 90 raises [TypeError], which is logged, and no
    point is reported; but line 88 has run, and the record in the store now
    holds the string as its start. *)
Theorem started_with_text_timestamp ev U s w r t :
  Py.lookup "type" ev = Some (PStr "task-started") ->
  Py.lookup "uuid" ev = Some (PStr U) ->
  Py.lookup "timestamp" ev = Some (PStr s) ->
  stored U w = Some (r, t) ->
  (forall n, (n < 5)%nat -> fresh_at w n t) ->
  exists w',
    task_handler ev w = (Normal tt, w') /\
    pending w' = pending w /\
    logged w' = (logged w ++ [LogException TypeError ev])%list /\
    stored U w' = Some (mkTaskRecord (r_name r) (r_received r) (PStr s), t).
Proof.
  intros Hty Hid Hts Hst Hf. unfold stored, fresh_at in *.
  pose proof (Hf 0%nat ltac:(lia)) as F0. pose proof (Hf 1%nat ltac:(lia)) as F1.
  pose proof (Hf 2%nat ltac:(lia)) as F2. pose proof (Hf 3%nat ltac:(lia)) as F3.
  pose proof (Hf 4%nat ltac:(lia)) as F4. cbn in F0, F1, F2, F3, F4. clear Hf.
  destruct (r_received r) eqn:Hr.
  all: eexists; split; [start_handler; exec; reflexivity|].
  all: cbn; rewrite find_mutate, Hst, Hr; repeat split.
Qed.

(** The theorem at a [started] event for [A] stamped ["noon"]. *)
Lemma started_with_text_timestamp_witness :
  exists w',
    task_handler [("type", PStr "task-started"); ("uuid", PStr "A");
                  ("timestamp", PStr "noon")] world_A = (Normal tt, w') /\
    pending w' = pending world_A /\
    logged w' =
      (logged world_A ++
       [LogException TypeError
          [("type", PStr "task-started"); ("uuid", PStr "A");
           ("timestamp", PStr "noon")]])%list /\
    stored "A" w' =
      Some (mkTaskRecord
              (r_name (mkTaskRecord (PStr "add") (PFloat (seconds 0)) (PInt 0)))
              (r_received (mkTaskRecord (PStr "add") (PFloat (seconds 0)) (PInt 0)))
              (PStr "noon"), seconds 1000).
Proof.
  apply started_with_text_timestamp.
  - reflexivity.
  - reflexivity.
  - reflexivity.
  - reflexivity.
  - intros n _. reflexivity.
Defined.

Lemma length_remove_found k l v :
  OrderedDict.find k l = Some v ->
  (List.length (OrderedDict.remove k l) < List.length l)%nat.
Proof.
  induction l as [|[k' v'] l IH]; simpl; [discriminate|].
  destruct (Py.key_eqb k' k).
  - intros _. apply Nat.lt_succ_r, length_remove.
  - intros H. simpl. apply -> Nat.succ_lt_mono. exact (IH H).
Qed.

(** X13.  An event of any kind but [received] whose record the first reading
    of the clock finds past its age: the entry is purged by the test of
    line 85 or 92, nothing is reported and nothing is logged. *)
Theorem expired_record_is_purged ev kind U ts w r t :
  task_event ev kind U ts ->
  In kind task_kinds -> kind <> "received" ->
  stored U w = Some (r, t) ->
  fresh (max_age (tuids w)) (clock w (ticks w)) t = false ->
  exists w',
    task_handler ev w = (Normal tt, w') /\
    pending w' = pending w /\ logged w' = logged w /\ stored U w' = None /\
    (List.length (items (tuids w')) < List.length (items (tuids w)))%nat.
Proof.
  intros [Hty Hid Hts] Hk Hnr Hst Hf. unfold stored in *.
  pose proof (length_remove_found _ _ _ Hst) as Hlen.
  assert (Hk' : In kind ("sent" :: "started" :: terminal_kinds)).
  { destruct (task_kind_cases _ Hk) as [->|[->|[->|H]]];
      [congruence|simpl; auto|simpl; auto|simpl in *; tauto]. }
  simpl in Hk'.
  repeat destruct Hk' as [<-|Hk']; try destruct Hk'.
  all: eexists; split; [start_handler; exec; reflexivity|].
  all: cbn; rewrite find_remove; repeat split; exact Hlen.
Qed.

(** The theorem at [succeeded(A, 9)] when the record of [A] is a week
    old. *)
Lemma expired_record_is_purged_witness :
  exists w',
    task_handler (task_ev "succeeded" "A" (seconds 9)) world_A_old = (Normal tt, w') /\
    pending w' = pending world_A_old /\ logged w' = logged world_A_old /\
    stored "A" w' = None /\
    (List.length (items (tuids w')) < List.length (items (tuids world_A_old)))%nat.
Proof.
  apply (expired_record_is_purged _ "succeeded" "A" (seconds 9) world_A_old
           (mkTaskRecord (PStr "add") (PFloat (seconds 0)) (PInt 0)) (seconds 0)).
  - apply task_ev_event.
  - simpl. tauto.
  - discriminate.
  - reflexivity.
  - reflexivity.
Defined.

(** ** Runs that leave nothing to log *)

Section ForallEntries.

Variable Q : OrderedDict.entry -> Prop.

Lemma Forall_entries_remove k l :
  Forall Q l -> Forall Q (OrderedDict.remove k l).
Proof.
  induction 1 as [|[k' v] l Hx Hl IH]; simpl; auto.
  destruct (Py.key_eqb k' k); auto.
Qed.

Lemma Forall_entries_store k v l :
  (forall k', Q (k', v)) -> Forall Q l -> Forall Q (OrderedDict.store k v l).
Proof.
  intros Hv. induction 1 as [|[k' v'] l Hx Hl IH]; simpl.
  - repeat constructor. apply Hv.
  - destruct (Py.key_eqb k' k); constructor; auto.
Qed.

Lemma Forall_entries_mutate k f l :
  (forall k' r t, Q (k', (r, t)) -> Q (k', (f r, t))) ->
  Forall Q l -> Forall Q (OrderedDict.mutate k f l).
Proof.
  intros Hf. induction 1 as [|[k' [r t]] l Hx Hl IH]; simpl; auto.
  destruct (Py.key_eqb k' k); constructor; auto.
Qed.

Lemma Forall_entries_evicted w :
  Forall Q (items (tuids w)) -> Forall Q (evicted w).
Proof.
  intros H. unfold evicted.
  destruct (_ =? _); auto. destruct H; simpl; auto.
Qed.

End ForallEntries.

Lemma run_ok_fresh clk w U r t :
  short_run clk -> run_ok clk w ->
  OrderedDict.find (PStr U) (items (tuids w)) = Some (r, t) ->
  record_wf r /\ forall n, fresh (max_age (tuids w)) (clock w n) t = true.
Proof.
  intros Hs (Hclk & Hage & Hall) Hst.
  destruct (find_In _ _ _ Hst) as [k' Hin].
  rewrite Forall_forall in Hall. destruct (Hall _ Hin) as [Hwf [m Hm]].
  split; [exact Hwf|]. intros n. simpl in Hm. rewrite Hclk, Hage, Hm. apply Hs.
Qed.

Ltac quiet_exec Hf := repeat first [ exec_step | rewrite Hf ].

Ltac quiet_done :=
  unfold run_ok, exceptions_logged in *; cbn;
  rewrite ?filter_app; cbn; rewrite ?app_nil_r;
  repeat split;
  auto using Forall_entries_remove, Forall_entries_store, Forall_entries_mutate,
             Forall_entries_evicted.

(** One complete event in a short run: the state stays as such a run has
    it, and line 113 logs nothing. *)
Lemma quiet_step clk ev w :
  short_run clk -> complete_event ev -> run_ok clk w ->
  exists w',
    task_handler ev w = (Normal tt, w') /\ run_ok clk w' /\
    exceptions_logged w' = exceptions_logged w.
Proof.
  intros Hs (kind & U & ts & [Hty Hid Hts] & Hfin & Hk & Hname) Hok.
  pose proof (run_ok_fresh clk w U) as Hrec. specialize (fun r t => Hrec r t Hs Hok).
  destruct Hok as (Hclk & Hage & Hall).
  assert (Hnew : forall n k', entry_ok clk
                   (k', (mkTaskRecord n (PFloat ts) (PInt 0), clock w (ticks w)))).
  { intros n k'. split; simpl.
    - split; simpl; eauto.
    - rewrite Hclk. eauto. }
  assert (Hset : forall k' r t, entry_ok clk (k', (r, t)) ->
                 entry_ok clk (k', (mkTaskRecord (r_name r) (r_received r) (PFloat ts), t))).
  { intros k' r t [[Hr _] Hm]. split; [split|]; simpl; eauto. }
  destruct (task_kind_cases _ Hk) as [->|[->|[->|Hk']]]; clear Hk.
  - destruct (Hname eq_refl) as [name Hn].
    destruct (Py.truthy name) eqn:Ht.
    + eexists. split; [start_handler; exec; reflexivity|]. quiet_done.
    + eexists. split; [start_handler; exec; reflexivity|]. quiet_done.
  - destruct (OrderedDict.find (PStr U) (items (tuids w))) as [[r t]|] eqn:Hst.
    + destruct (Hrec r t eq_refl) as [_ Hf].
      destruct (Py.truthy (r_name r)) eqn:Ht.
      * eexists. split; [start_handler; quiet_exec Hf; reflexivity|]. quiet_done.
      * eexists. split; [start_handler; quiet_exec Hf; reflexivity|]. quiet_done.
    + eexists. split; [start_handler; exec; reflexivity|]. quiet_done.
  - destruct (OrderedDict.find (PStr U) (items (tuids w))) as [[r t]|] eqn:Hst.
    + destruct (Hrec r t eq_refl) as [[(f0 & Hr & _) _] Hf].
      destruct (Py.truthy (r_name r)) eqn:Ht.
      * eexists. split; [start_handler; quiet_exec Hf; reflexivity|]. quiet_done.
      * eexists. split; [start_handler; quiet_exec Hf; reflexivity|]. quiet_done.
    + eexists. split; [start_handler; exec; reflexivity|]. quiet_done.
  - kind_tests Hk'.
    destruct (OrderedDict.find (PStr U) (items (tuids w))) as [[r t]|] eqn:Hst.
    + destruct (Hrec r t eq_refl) as [[_ [H0|(s & H0 & _)]] Hf].
      * destruct (Py.truthy (r_name r)) eqn:Ht.
        -- eexists. split; [start_handler; quiet_exec Hf; reflexivity|]. quiet_done.
        -- eexists. split; [start_handler; quiet_exec Hf; reflexivity|]. quiet_done.
      * destruct (Py.truthy (r_name r)) eqn:Ht; destruct (PyFloat.is_zero s) eqn:Hz.
        -- eexists. split; [start_handler; quiet_exec Hf; reflexivity|]. quiet_done.
        -- eexists. split; [start_handler; quiet_exec Hf; reflexivity|]. quiet_done.
        -- eexists. split; [start_handler; quiet_exec Hf; reflexivity|]. quiet_done.
        -- eexists. split; [start_handler; quiet_exec Hf; reflexivity|]. quiet_done.
    + eexists. split; [start_handler; exec; reflexivity|]. quiet_done.
Qed.

Lemma run_ok_initial clk : run_ok clk (initial clk).
Proof. repeat split. constructor. Qed.

Lemma run_ok_wf clk w : run_ok clk w -> store_wf w.
Proof.
  intros (_ & _ & H). unfold store_wf. eapply Forall_impl; [|exact H].
  now intros e [He _].
Qed.

(** X14.  In a run shorter than the age bound of the store, a stream of
    complete lifecycle events, in any order and for any identifiers, never
    takes the [except] branch of line 112: no exception is logged, and
    every record in the store holds a finite float as its time of reception
    and [0] or a finite float as its start. *)
Theorem complete_events_raise_nothing clk evs :
  short_run clk -> Forall complete_event evs ->
  fst (for_each task_handler evs (initial clk)) = Normal tt /\
  exceptions_logged (snd (for_each task_handler evs (initial clk))) = [] /\
  store_wf (snd (for_each task_handler evs (initial clk))).
Proof.
  intros Hs Hevs.
  assert (G : forall w, run_ok clk w ->
              fst (for_each task_handler evs w) = Normal tt /\
              exceptions_logged (snd (for_each task_handler evs w)) =
                exceptions_logged w /\
              run_ok clk (snd (for_each task_handler evs w))).
  { induction Hevs as [|ev evs Hev Hevs IH]; intros w Hok.
    - simpl. auto.
    - destruct (quiet_step clk ev w Hs Hev Hok) as (w' & E & Hok' & Hl).
      rewrite (for_each_cons_normal _ _ _ _ _ E).
      destruct (IH w' Hok') as (I1 & I2 & I3). rewrite <- Hl. auto. }
  destruct (G _ (run_ok_initial clk)) as (G1 & G2 & G3).
  split; [exact G1|]. split; [exact G2|]. exact (run_ok_wf _ _ G3).
Qed.

(** The theorem at the life of a task [A] and a stray [sent] event, under a
    clock that stands still. *)
Lemma complete_events_raise_nothing_witness :
  let evs := [ named_task_ev "received" "A" "add" (seconds 0);
               task_ev "sent" "B" (seconds 1);
               task_ev "started" "A" (seconds 5);
               task_ev "succeeded" "A" (seconds 9) ] in
  fst (for_each task_handler evs (initial clock0)) = Normal tt /\
  exceptions_logged (snd (for_each task_handler evs (initial clock0))) = [] /\
  store_wf (snd (for_each task_handler evs (initial clock0))).
Proof.
  apply complete_events_raise_nothing.
  - intros n m. reflexivity.
  - repeat constructor.
    + exists "received", "A", (seconds 0). repeat split; simpl; eauto 10.
    + exists "sent", "B", (seconds 1). repeat split; simpl; auto 10; discriminate.
    + exists "started", "A", (seconds 5). repeat split; simpl; auto 10; discriminate.
    + exists "succeeded", "A", (seconds 9). repeat split; simpl; auto 10; discriminate.
Defined.

(** ** The aggregator, cycle after cycle *)

Lemma filter_none_rest {A} (f : A -> bool) l :
  filter f l = [] -> filter (fun x => negb (f x)) l = l.
Proof.
  induction l as [|a l IH]; simpl; auto.
  destruct (f a); simpl; [discriminate|]. intros H. now rewrite IH.
Qed.

Lemma filter_queue_points counts :
  filter is_queue_metric (map queue_point counts) = map queue_point counts.
Proof. induction counts as [|c counts IH]; simpl; auto. now rewrite IH. Qed.

Lemma filter_worker_queue_points counts :
  filter is_worker_metric (map queue_point counts) = [].
Proof. induction counts as [|c counts IH]; simpl; auto. Qed.

Lemma filter_rest_queue_points counts :
  filter (fun m => negb (is_queue_metric m)) (map queue_point counts) = [].
Proof. induction counts as [|c counts IH]; simpl; auto. Qed.

(** Lines 140-143 change the log and the pending points only. *)
Lemma collect_queues_state counts : forall w,
  exists lg,
    for_each (fun nc => log (LogQueue (fst nc) (snd nc)) ;;
                        emit (QueueMetric (fst nc) (snd nc))) counts w
    = (Normal tt,
       set_logged lg (set_pending (pending w ++ map queue_point counts) w)).
Proof.
  induction counts as [|nc counts IH]; intros w; simpl.
  - exists (logged w). rewrite app_nil_r. now destruct w.
  - rewrite bind_eq. cbn.
    match goal with
    | |- context [for_each _ counts ?w1] => destruct (IH w1) as (lg & E)
    end.
    exists lg. rewrite E. cbn. now rewrite <- app_assoc.
Qed.

Lemma Submitter_collect_state counts w :
  exists lg,
    Submitter_collect counts w =
    (Normal tt,
     set_heartbeats []
       (set_logged lg
          (set_pending (pending w ++ map queue_point counts ++
                        [WorkerMetric (List.length (heartbeats w))]) w))).
Proof.
  unfold Submitter_collect.
  destruct (collect_queues_state counts w) as (lg & E).
  eexists. rewrite bind_eq, E. cbn. rewrite <- app_assoc. reflexivity.
Qed.

(** One cycle on a state in which no gauge point is left over. *)
Lemma Submitter_cycle_state counts w :
  gauges_flushed w ->
  exists w',
    Submitter_cycle counts w = (Normal tt, w') /\
    written w' =
      (written w ++ map queue_point counts ++
       [WorkerMetric (List.length (heartbeats w))])%list /\
    pending w' = pending w /\ heartbeats w' = [] /\ tuids w' = tuids w.
Proof.
  intros [Hq Hw]. unfold Submitter_cycle.
  destruct (Submitter_collect_state counts w) as (lg & E).
  rewrite bind_eq, E. unfold Submitter_commit. rewrite bind_eq.
  unfold try_except at 1, commit at 1. cbn [pending set_heartbeats set_logged set_pending].
  rewrite !filter_app, Hq, filter_queue_points. cbn [filter is_queue_metric app].
  rewrite app_nil_r.
  destruct (map queue_point counts) as [|p ps] eqn:Ep.
  - cbn [is_AttributeError ret].
    unfold try_except, commit. cbn [pending set_heartbeats set_logged set_pending].
    rewrite !filter_app, Hw. cbn.
    rewrite (filter_none_rest _ _ Hw). eexists. split; [reflexivity|].
    cbn. rewrite app_nil_r. repeat split.
  - unfold try_except, commit.
    cbn [pending written set_heartbeats set_logged set_pending set_written].
    rewrite <- Ep.
    rewrite !filter_app, (filter_none_rest _ _ Hq), filter_rest_queue_points.
    cbn [filter is_queue_metric is_worker_metric negb app].
    rewrite Hw, (filter_none_rest _ _ Hw). cbn [app].
    eexists. split; [reflexivity|].
    cbn. rewrite app_nil_r, <- app_assoc. repeat split.
Qed.

(** X15.  One cycle of the aggregator, whatever the queue counters read
    (none at all included, when [QueueStats.commit] raises and line 153
    passes): it ends normally, commits one point per queue and then the
    number of hosts in the heartbeat set, empties that set, and leaves the
    task points and the store of [task_handler] alone. *)
Theorem Submitter_cycle_commits counts w :
  gauges_flushed w ->
  exists w',
    Submitter_cycle counts w = (Normal tt, w') /\
    written w' =
      (written w ++ map queue_point counts ++
       [WorkerMetric (List.length (heartbeats w))])%list /\
    pending w' = pending w /\ heartbeats w' = [] /\ tuids w' = tuids w.
Proof. apply Submitter_cycle_state. Qed.

(** The theorem at a cycle with no queue, while the point of task [A] is
    pending. *)
Lemma Submitter_cycle_commits_witness :
  exists w',
    Submitter_cycle [] world_A = (Normal tt, w') /\
    written w' =
      (written world_A ++ map queue_point [] ++
       [WorkerMetric (List.length (heartbeats world_A))])%list /\
    pending w' = pending world_A /\ heartbeats w' = [] /\ tuids w' = tuids world_A.
Proof.
  apply Submitter_cycle_commits. split; reflexivity.
Defined.

Lemma Submitter_turn_state counts w :
  gauges_flushed w ->
  exists w',
    Submitter_turn counts w = (Normal tt, w') /\
    written w' =
      (written w ++ map queue_point counts ++
       [WorkerMetric (List.length (heartbeats w))])%list /\
    pending w' = pending w /\ heartbeats w' = [] /\ tuids w' = tuids w.
Proof.
  intros H. destruct (Submitter_cycle_state counts w H) as (w' & E & R).
  exists w'. split; [|exact R].
  unfold Submitter_turn, try_except_Exception, try_except. now rewrite E.
Qed.

(** X16.  [Submitter._run] over any number of cycles with no heartbeat in
    between: every cycle is run (none ends the loop), the first one reports
    the hosts seen so far and each later one reports no worker at all,
    since line 148 has emptied the set. *)
Theorem Submitter_run_reports cycles w :
  gauges_flushed w ->
  exists w',
    Submitter_run cycles w = (Normal tt, w') /\
    written w' =
      (written w ++ cycles_report (List.length (heartbeats w)) cycles)%list /\
    pending w' = pending w /\ tuids w' = tuids w.
Proof.
  intros H.
  assert (G : forall cycles w, gauges_flushed w ->
              exists w',
                for_each Submitter_turn cycles w = (Normal tt, w') /\
                written w' =
                  (written w ++ cycles_report (List.length (heartbeats w)) cycles)%list /\
                pending w' = pending w /\ tuids w' = tuids w).
  { clear. induction cycles as [|counts cycles IH]; intros w H.
    - exists w. simpl. rewrite app_nil_r. auto.
    - destruct (Submitter_turn_state counts w H) as (w1 & E & Wr & P & Hb & T).
      assert (H1 : gauges_flushed w1) by (unfold gauges_flushed in *; now rewrite P).
      destruct (IH w1 H1) as (w' & E' & Wr' & P' & T').
      exists w'. rewrite (for_each_cons_normal _ _ _ _ _ E). split; [exact E'|].
      rewrite Wr', Wr, Hb, P', P, T', T. simpl.
      rewrite <- !app_assoc. auto. }
  destruct (G cycles w H) as (w' & E & R).
  exists w'. split; [|exact R]. unfold Submitter_run, call. now rewrite E.
Qed.

(** The theorem at three cycles after the heartbeats of two hosts. *)
Lemma Submitter_run_reports_witness :
  let w := snd (for_each event_dispatcher
                  [worker_ev "worker-heartbeat" "w1"; worker_ev "worker-online" "w2"]
                  (initial clock0)) in
  exists w',
    Submitter_run [[("default", 3)]; []; [("default", 1)]] w = (Normal tt, w') /\
    written w' =
      (written w ++
       cycles_report (List.length (heartbeats w))
                     [[("default", 3)]; []; [("default", 1)]])%list /\
    pending w' = pending w /\ tuids w' = tuids w.
Proof.
  apply Submitter_run_reports. split; reflexivity.
Defined.
